(** * morning-webhook: the two webhook handlers and the Base44 client surface

    A shallow embedding of
    - [src/api/morningWebhook.js]  (module [MorningWebhook]),
    - the simpler webhook handler  (module [SimpleWebhook]),
    - the SDK type declarations    (module [Dts]),
    and of the client core the declarations describe (module [Sdk]).

    JavaScript values are an inductive type, numbers are IEEE doubles
    (primitive floats), asynchronous code is written in a state-and-exception
    monad whose state holds the response object and the trace of effects. *)

From Stdlib Require Import List String Ascii ZArith Bool Lia.
From Stdlib Require Import Floats DecimalString.
Import ListNotations.
Open Scope string_scope.
Set Warnings "-register-all".

(* ================================================================= *)
(** ** JavaScript values *)

(** What [JSON.parse] and a body parser can produce, plus [undefined]. An
    object is its list of own properties in insertion order; a lookup takes
    the first binding of a key. *)
Inductive jsval : Type :=
| JUndefined
| JNull
| JBool (b : bool)
| JNumber (n : float)
| JString (s : string)
| JArray (items : list jsval)
| JObject (props : list (string * jsval)).

Fixpoint own_property (props : list (string * jsval)) (key : string) : option jsval :=
  match props with
  | [] => None
  | (k, v) :: rest => if String.eqb k key then Some v else own_property rest key
  end.

(** [v?.key] for a key that no prototype defines ([payer], [email],
    [full_name]): [undefined] on [null] and [undefined] (the short circuit of
    the optional chain), [undefined] on primitives and arrays, the own
    property on objects. *)
Definition optional_get (v : jsval) (key : string) : jsval :=
  match v with
  | JObject props =>
      match own_property props key with
      | Some x => x
      | None => JUndefined
      end
  | _ => JUndefined
  end.

(** ToBoolean: what [!x] and [x || y] test. *)
Definition ToBoolean (v : jsval) : bool :=
  match v with
  | JUndefined | JNull => false
  | JBool b => b
  | JNumber n => negb (PrimFloat.eqb n 0%float || PrimFloat.is_nan n)
  | JString s => negb (String.eqb s "")
  | JArray _ | JObject _ => true
  end.

(** [a || b]. *)
Definition js_or (a b : jsval) : jsval := if ToBoolean a then a else b.

(** Errors: the built-in [Error] (with its [name]: SyntaxError, TypeError,
    ...) and the SDK's [Base44Error], which extends it. *)
Record Error : Type := mkError { err_name : string; err_message : string }.

Record Base44Error : Type := mkBase44Error {
  message : string;
  status : option Z;
  code : option string;
  data : option jsval;
  originalError : option Error
}.

Inductive thrown : Type :=
| ThrownError (e : Error)
| ThrownBase44 (e : Base44Error).

Definition thrown_message (t : thrown) : string :=
  match t with
  | ThrownError e => err_message e
  | ThrownBase44 e => message e
  end.

Definition TypeError (msg : string) : thrown := ThrownError (mkError "TypeError" msg).

(** What the host runtime supplies and the repository does not define:
    [Number.prototype.toString] on doubles and [JSON.parse] (on the text
    decoded from the request's bytes), which returns a value or throws. *)
Inductive completion (A : Type) : Type :=
| Normal (a : A)
| Throw (e : thrown).
Arguments Normal {A} a.
Arguments Throw {A} e.

Class Runtime : Type := {
  Number_toString : float -> string;
  JSON_parse : string -> completion jsval
}.

Section Conversions.
Context {rt : Runtime}.

(** ToString as a template literal applies it. [None] is the TypeError
    "Cannot convert object to primitive value": an object with an own
    [toString] property holds data there, nothing callable, and neither that
    nor [valueOf] yields a primitive. Without one, [Object.prototype.toString]
    answers. An array joins its elements with commas, [null] and [undefined]
    elements as the empty string. *)
Fixpoint ToString (v : jsval) : option string :=
  match v with
  | JUndefined => Some "undefined"
  | JNull => Some "null"
  | JBool true => Some "true"
  | JBool false => Some "false"
  | JNumber n => Some (Number_toString n)
  | JString s => Some s
  | JArray items =>
      (fix join (l : list jsval) : option string :=
         match l with
         | [] => Some ""
         | x :: rest =>
             let first :=
               match x with
               | JUndefined | JNull => Some ""
               | _ => ToString x
               end in
             match rest with
             | [] => first
             | _ :: _ =>
                 match first, join rest with
                 | Some a, Some b => Some (a ++ "," ++ b)
                 | _, _ => None
                 end
             end
         end) items
  | JObject props =>
      match own_property props "toString" with
      | Some _ => None
      | None => Some "[object Object]"
      end
  end.

End Conversions.

(* ================================================================= *)
(** ** The monad of handler code: state and exceptions *)

Definition JS (S A : Type) : Type := S -> completion A * S.

Definition ret {S A : Type} (a : A) : JS S A := fun s => (Normal a, s).

Definition throw {S A : Type} (e : thrown) : JS S A := fun s => (Throw e, s).

Definition bind {S A B : Type} (m : JS S A) (k : A -> JS S B) : JS S B :=
  fun s =>
    match m s with
    | (Normal a, s') => k a s'
    | (Throw e, s') => (Throw e, s')
    end.

(** [try { m } catch (err) { h err }]. *)
Definition try_catch {S A : Type} (m : JS S A) (h : thrown -> JS S A) : JS S A :=
  fun s =>
    match m s with
    | (Normal a, s') => (Normal a, s')
    | (Throw e, s') => h e s'
    end.

Definition modify {S : Type} (f : S -> S) : JS S unit := fun s => (Normal tt, f s).

Definition of_completion {S A : Type} (c : completion A) : JS S A := fun s => (c, s).

Declare Scope js_scope.
Delimit Scope js_scope with js.
Notation "x <- m ;; k" := (bind m (fun x => k))
  (at level 61, m at next level, right associativity) : js_scope.
Notation "m ;; k" := (bind m (fun _ => k))
  (at level 61, right associativity) : js_scope.
Open Scope js_scope.

(* ================================================================= *)
(** ** Requests, responses and the effects a handler has *)

(** The SDK's [Entity]: a mandatory [id: string] and an open set of other
    fields. *)
Record Entity : Type := mkEntity { id : string; fields : list (string * jsval) }.

(** [entity.key] for a key other than [id]. *)
Definition entity_get (e : Entity) (key : string) : jsval :=
  match own_property (fields e) key with
  | Some v => v
  | None => JUndefined
  end.

(** The incoming request: its method, the chunks its body stream yields
    (and the error the stream ends with, if it fails), and the body as the
    platform's body parser presents it in [req.body]. *)
Record Request : Type := mkRequest {
  method : string;
  chunks : list string;
  stream_error : option thrown;
  body : jsval
}.

(** The response object: [res.status(n)] sets the code, [res.setHeader]
    adds a header (a value may be a list of strings), [res.send] and
    [res.end] write the body and finish the response. *)
Record Response : Type := mkResponse {
  statusCode : Z;
  headers : list (string * list string);
  sent : option string
}.

Definition fresh_response : Response := mkResponse 200 [] None.

Inductive console_arg : Type :=
| LogText (s : string)
| LogValue (v : jsval)
| LogThrown (e : thrown).

(** What a handler does besides writing the response, in order. *)
Inductive event : Type :=
| FilterCall (entity : string) (query : jsval)
| UpdateCall (entity : string) (target : string) (changes : jsval)
| ConsoleLog (args : list console_arg)
| ConsoleError (args : list console_arg).

Record World : Type := mkWorld { res : Response; trace : list event }.

Definition initial_world : World := mkWorld fresh_response [].

Definition is_backend_call (e : event) : bool :=
  match e with
  | FilterCall _ _ | UpdateCall _ _ _ => true
  | ConsoleLog _ | ConsoleError _ => false
  end.

Definition backend_calls (w : World) : list event := filter is_backend_call (trace w).

Definition emit (e : event) : JS World unit :=
  modify (fun w => mkWorld (res w) (trace w ++ [e])).

Definition console_log (args : list console_arg) : JS World unit := emit (ConsoleLog args).
Definition console_error (args : list console_arg) : JS World unit := emit (ConsoleError args).

Definition res_status (n : Z) : JS World unit :=
  modify (fun w => mkWorld (mkResponse n (headers (res w)) (sent (res w))) (trace w)).

Definition res_setHeader (name : string) (value : list string) : JS World unit :=
  modify (fun w =>
    mkWorld (mkResponse (statusCode (res w)) (headers (res w) ++ [(name, value)]) (sent (res w)))
            (trace w)).

Definition res_send (text : string) : JS World unit :=
  modify (fun w => mkWorld (mkResponse (statusCode (res w)) (headers (res w)) (Some text)) (trace w)).

Definition res_end (text : string) : JS World unit := res_send text.

(** The client [base44 = createClient({appId})] as a handler sees it: each
    entity call is sent to the backend, and the promise it returns settles
    with what the backend answers, a value or a rejection. *)
Record Backend : Type := mkBackend {
  filter_reply : string -> jsval -> completion (list Entity);
  update_reply : string -> string -> jsval -> completion Entity
}.

(** [await base44.entities[entity].filter(query)]. *)
Definition entities_filter (b : Backend) (entity : string) (query : jsval)
  : JS World (list Entity) :=
  emit (FilterCall entity query) ;; of_completion (filter_reply b entity query).

(** [await base44.entities[entity].update(id, changes)]. *)
Definition entities_update (b : Backend) (entity target : string) (changes : jsval)
  : JS World Entity :=
  emit (UpdateCall entity target changes) ;; of_completion (update_reply b entity target changes).

(** [for await (const chunk of req) buffers.push(chunk)]: the chunks in
    order, then the stream's error if it has one. *)
Fixpoint push_all (buffers pending : list string) : list string :=
  match pending with
  | [] => buffers
  | chunk :: rest => push_all (buffers ++ [chunk]) rest
  end.

Definition read_stream (req : Request) : JS World (list string) :=
  match stream_error req with
  | Some e => throw e
  | None => ret (push_all [] (chunks req))
  end.

(** [Buffer.concat(buffers).toString('utf8')]: the text is kept as its
    bytes, which is what the [JSON_parse] of the runtime reads here. *)
Definition Buffer_concat (buffers : list string) : string := String.concat "" buffers.

Section Templates.
Context {rt : Runtime}.

(** The value of a template literal's hole, or the TypeError of ToString.
    In [res.status(n).send(`...`)] the call of [status] comes first, the
    template is evaluated next, as the argument of [send]. *)
Definition template_hole {S : Type} (v : jsval) : JS S string :=
  match ToString v with
  | Some s => ret s
  | None => throw (TypeError "Cannot convert object to primitive value")
  end.

End Templates.

(* ================================================================= *)
(** ** src/api/morningWebhook.js *)

Module MorningWebhook.
Section Handler.
Context {rt : Runtime}.
Variable base44 : Backend.

Definition payer_email (payload : jsval) : jsval :=
  optional_get (optional_get payload "payer") "email".

Definition on_post (req : Request) : JS World unit :=
  try_catch
    (buffers <- read_stream req ;;
     let rawBody := Buffer_concat buffers in
     payload <- of_completion (JSON_parse rawBody) ;;
     let email := payer_email payload in
     if negb (ToBoolean email) then
       res_status 400 ;; res_send "Email not found in payload"
     else
       console_log [LogText "🔍 Searching for user with email:"; LogValue email] ;;
       users <- entities_filter base44 "User" (JObject [("email", email)]) ;;
       if (List.length users =? 0)%nat then
         console_log [LogText "⚠️ No user found for email:"; LogValue email] ;;
         res_status 404 ;; res_send "User not found"
       else
         match users with
         | [] => throw (TypeError "Cannot read properties of undefined (reading 'id')")
         | user :: _ =>
             entities_update base44 "User" (id user)
               (JObject [("subscription_type", JString "premium")]) ;;
             console_log [LogText "✅ User updated to premium:";
                          LogValue (entity_get user "full_name")] ;;
             res_status 200 ;;
             full_name <- template_hole (entity_get user "full_name") ;;
             res_send ("User " ++ full_name ++ " updated to premium")
         end)
    (fun err =>
       console_error [LogText "❌ Error:"; LogText (thrown_message err)] ;;
       console_error [LogText "❌ Full error object:"; LogThrown err] ;;
       res_status 500 ;; res_send "Internal server error").

Definition handler (req : Request) : JS World unit :=
  if String.eqb (method req) "GET" then
    res_status 200 ;; res_send "GET is working"
  else if String.eqb (method req) "POST" then
    on_post req
  else
    res_setHeader "Allow" ["POST"; "GET"] ;;
    res_status 405 ;;
    res_send ("Method " ++ method req ++ " Not Allowed").

End Handler.
End MorningWebhook.

(* ================================================================= *)
(** ** The simpler webhook handler *)

Module SimpleWebhook.
Section Handler.
Context {rt : Runtime}.

Definition handler (req : Request) : JS World unit :=
  if String.eqb (method req) "GET" then
    res_status 200 ;; res_send "GET is working"
  else if String.eqb (method req) "POST" then
    let body := body req in
    let email := js_or (optional_get (optional_get body "payer") "email") (JString "unknown") in
    console_log [LogText "Received webhook for email:"; LogValue email] ;;
    res_status 200 ;;
    text <- template_hole email ;;
    res_send ("Webhook received for " ++ text)
  else
    res_setHeader "Allow" ["POST"; "GET"] ;;
    res_status 405 ;;
    res_end ("Method " ++ method req ++ " Not Allowed").

End Handler.
End SimpleWebhook.

(* ================================================================= *)
(** ** The SDK's type declarations *)

(** The declaration file of the client, read as data: types, members and
    the declarations by name. *)
Module Dts.

Inductive ts_type : Type :=
| TString
| TNumber
| TBoolean
| TAny
| TVoid
| TLiteral (text : string)
| TUnion (alternatives : list ts_type)
| TArray (element : ts_type)
| TNamed (name : string)
| TRecord (key value : ts_type)
| TPromise (result : ts_type)
| TObject (shape : list (string * ts_type)).

Record parameter : Type := mkParameter {
  param_name : string;
  param_optional : bool;
  param_type : ts_type
}.

Inductive member : Type :=
| Property (name : string) (optional : bool) (type : ts_type)
| Method (name : string) (params : list parameter) (result : ts_type)
| IndexSignature (key : string) (type : ts_type)
| CallSignature (params : list parameter) (result : ts_type)
| Constructor (params : list parameter).

Inductive declaration_kind : Type := Interface | Class.

Record declaration : Type := mkDeclaration {
  decl_kind : declaration_kind;
  decl_name : string;
  extends : option string;
  members : list member
}.

Definition required (name : string) (t : ts_type) : parameter := mkParameter name false t.
Definition optional (name : string) (t : ts_type) : parameter := mkParameter name true t.

Definition AnyRecord : ts_type := TRecord TString TAny.
Definition FieldList : ts_type := TUnion [TArray TString; TString].

Definition ClientConfig : declaration :=
  mkDeclaration Interface "ClientConfig" None
    [ Property "serverUrl" true TString;
      Property "appId" false (TUnion [TString; TNumber]);
      Property "env" true (TUnion [TLiteral "prod"; TLiteral "dev"]);
      Property "token" true TString;
      Property "requiresAuth" true TBoolean ].

Definition Entity : declaration :=
  mkDeclaration Interface "Entity" None
    [ Property "id" false TString;
      IndexSignature "key" TAny ].

Definition FilterOptions : declaration :=
  mkDeclaration Interface "FilterOptions" None
    [ Property "sort" true TString;
      Property "limit" true TNumber;
      Property "skip" true TNumber;
      Property "fields" true FieldList ].

Definition paging : list parameter :=
  [ optional "sort" TString; optional "limit" TNumber; optional "skip" TNumber;
    optional "fields" FieldList ].

Definition EntityMethods : declaration :=
  mkDeclaration Interface "EntityMethods" None
    [ Method "list" paging (TPromise (TArray (TNamed "Entity")));
      Method "filter" (required "query" TAny :: paging) (TPromise (TArray (TNamed "Entity")));
      Method "get" [required "id" TString] (TPromise (TNamed "Entity"));
      Method "create" [required "data" AnyRecord] (TPromise (TNamed "Entity"));
      Method "update" [required "id" TString; required "data" AnyRecord]
        (TPromise (TNamed "Entity"));
      Method "delete" [required "id" TString] (TPromise TVoid);
      Method "deleteMany" [required "query" AnyRecord] (TPromise TVoid);
      Method "bulkCreate" [required "data" (TArray AnyRecord)]
        (TPromise (TArray (TNamed "Entity")));
      Method "importEntities" [required "file" (TNamed "File")] (TPromise TAny) ].

Definition EntitiesModule : declaration :=
  mkDeclaration Interface "EntitiesModule" None
    [ IndexSignature "entityName" (TNamed "EntityMethods") ].

Definition IntegrationEndpoint : declaration :=
  mkDeclaration Interface "IntegrationEndpoint" None
    [ CallSignature [required "data" AnyRecord] (TPromise TAny) ].

Definition IntegrationsPackage : declaration :=
  mkDeclaration Interface "IntegrationsPackage" None
    [ IndexSignature "endpointName" (TNamed "IntegrationEndpoint") ].

Definition IntegrationsModule : declaration :=
  mkDeclaration Interface "IntegrationsModule" None
    [ IndexSignature "packageName" (TNamed "IntegrationsPackage") ].

Definition AuthModule : declaration :=
  mkDeclaration Interface "AuthModule" None
    [ Method "me" [] (TPromise (TNamed "Entity"));
      Method "updateMe" [required "data" AnyRecord] (TPromise (TNamed "Entity"));
      Method "login" [optional "nextUrl" TString] TVoid;
      Method "logout" [optional "redirectUrl" TString] (TPromise TVoid);
      Method "setToken" [required "token" TString; optional "saveToStorage" TBoolean] TVoid;
      Method "isAuthenticated" [] (TPromise TBoolean) ].

Definition Base44Client : declaration :=
  mkDeclaration Interface "Base44Client" None
    [ Property "entities" false (TNamed "EntitiesModule");
      Property "integrations" false (TNamed "IntegrationsModule");
      Property "auth" false (TNamed "AuthModule");
      Method "setToken" [required "token" TString] TVoid;
      Method "getConfig" []
        (TObject [ ("serverUrl", TString); ("appId", TUnion [TString; TNumber]);
                   ("env", TString); ("requiresAuth", TBoolean) ]) ].

Definition Base44Error : declaration :=
  mkDeclaration Class "Base44Error" (Some "Error")
    [ Property "status" true TNumber;
      Property "code" true TString;
      Property "data" true TAny;
      Property "originalError" true (TNamed "Error");
      Constructor [ required "message" TString; optional "status" TNumber;
                    optional "code" TString; optional "data" TAny;
                    optional "originalError" (TNamed "Error") ] ].

(** [export function createClient(config: ClientConfig): Base44Client]. *)
Definition createClient : list parameter * ts_type :=
  ([required "config" (TNamed "ClientConfig")], TNamed "Base44Client").

Definition declarations : list declaration :=
  [ ClientConfig; Entity; FilterOptions; EntityMethods; EntitiesModule;
    IntegrationEndpoint; IntegrationsPackage; IntegrationsModule; AuthModule;
    Base44Client; Base44Error ].

Fixpoint find_declaration (ds : list declaration) (name : string) : option declaration :=
  match ds with
  | [] => None
  | d :: rest => if String.eqb (decl_name d) name then Some d else find_declaration rest name
  end.

Definition member_name (m : member) : option string :=
  match m with
  | Property name _ _ | Method name _ _ => Some name
  | IndexSignature _ _ | CallSignature _ _ | Constructor _ => None
  end.

Fixpoint named_members (ms : list member) : list string :=
  match ms with
  | [] => []
  | m :: rest =>
      match member_name m with
      | Some name => name :: named_members rest
      | None => named_members rest
      end
  end.

(** The names an object of the declared type has as properties and
    methods. *)
Definition member_names (d : declaration) : list string := named_members (members d).

Definition is_required (m : member) : bool :=
  match m with
  | Property _ false _ | Method _ _ _ => true
  | _ => false
  end.

Definition required_names (d : declaration) : list string :=
  named_members (List.filter is_required (members d)).

Fixpoint index_signature (ms : list member) : option ts_type :=
  match ms with
  | [] => None
  | IndexSignature _ t :: _ => Some t
  | _ :: rest => index_signature rest
  end.

Fixpoint declared_type (ms : list member) (key : string) : option ts_type :=
  match ms with
  | [] => None
  | Property name _ t :: rest => if String.eqb name key then Some t else declared_type rest key
  | _ :: rest => declared_type rest key
  end.

Definition mem (name : string) (names : list string) : bool := existsb (String.eqb name) names.

(** The type of [object[key]]: the declared property's when the key names
    a member (a method has no property type here), else the index
    signature's. *)
Definition property_type (d : declaration) (key : string) : option ts_type :=
  if mem key (member_names d) then declared_type (members d) key
  else index_signature (members d).

(** What a call of the method [name] returns. *)
Fixpoint method_result (ms : list member) (name : string) : option ts_type :=
  match ms with
  | [] => None
  | Method n _ r :: rest => if String.eqb n name then Some r else method_result rest name
  | _ :: rest => method_result rest name
  end.

(** The type of [client.entities[entityName]], resolved to its
    declaration. *)
Definition entity_handle (entityName : string) : option declaration :=
  match property_type EntitiesModule entityName with
  | Some (TNamed name) => find_declaration declarations name
  | _ => None
  end.

(** The check an object literal passes against a declared type without an
    index signature: the keys it has that the type does not declare, and the
    required members it lacks. *)
Definition excess_properties (d : declaration) (keys : list string) : list string :=
  List.filter (fun k => negb (mem k (member_names d))) keys.

Definition missing_properties (d : declaration) (keys : list string) : list string :=
  List.filter (fun k => negb (mem k keys)) (required_names d).

Definition literal_accepted (d : declaration) (keys : list string) : bool :=
  match excess_properties d keys, missing_properties d keys with
  | [], [] => true
  | _, _ => false
  end.

(** The configuration of the README's basic setup:
    [{serverUrl, appId, env, token, autoInitAuth: true}]. *)
Definition readme_config_keys : list string :=
  ["serverUrl"; "appId"; "env"; "token"; "autoInitAuth"].

End Dts.

(** Readings of the declarations beyond the entity handle: what an
    integration endpoint is, and which names the file refers to. *)
Module Surface.

Fixpoint call_signature (ms : list Dts.member) : option (list Dts.parameter * Dts.ts_type) :=
  match ms with
  | [] => None
  | Dts.CallSignature params result :: _ => Some (params, result)
  | _ :: rest => call_signature rest
  end.

Definition resolve (t : option Dts.ts_type) : option Dts.declaration :=
  match t with
  | Some (Dts.TNamed name) => Dts.find_declaration Dts.declarations name
  | _ => None
  end.

(** The type of [client.integrations[package][name]], resolved to its
    declaration. *)
Definition integration_endpoint (package name : string) : option Dts.declaration :=
  match resolve (Dts.property_type Dts.IntegrationsModule package) with
  | Some pkg => resolve (Dts.property_type pkg name)
  | None => None
  end.







End Surface.

(* ================================================================= *)
(** ** The client core *)

(** The implementation of [createClient] is not among the sources; only
    its declarations and its README are. The module follows the
    specification's component design, component by component. *)
Module Sdk.

(** Modelled from the spec: the values of [env] the missing factory
    knows; section 3, "env: enum{prod,dev}". *)
Inductive Env : Type := prod | dev.

(** Modelled from the spec: the app id the missing factory takes; section
    3, "appId: string|number". *)
Inductive AppId : Type :=
| AppIdString (s : string)
| AppIdNumber (n : float).

(** Modelled from the spec: the configuration value the missing factory
    receives; section 3, ClientConfig, every field possibly absent as in a
    JavaScript object. *)
Record ClientConfig : Type := mkClientConfig {
  serverUrl : option string;
  appId : option AppId;
  env : option Env;
  token : option string;
  requiresAuth : option bool;
  autoInitAuth : option bool
}.

(** Modelled from the spec: the configuration after [createClient] has
    applied its defaults (section 4.6), which the missing factory binds the
    components to. *)
Record Config : Type := mkConfig {
  cfg_serverUrl : string;
  cfg_appId : AppId;
  cfg_env : Env;
  cfg_requiresAuth : bool;
  cfg_autoInitAuth : bool
}.

(** What [getConfig()] returns, by the declaration of [Base44Client]. *)
Record Snapshot : Type := mkSnapshot {
  snap_serverUrl : string;
  snap_appId : AppId;
  snap_env : string;
  snap_requiresAuth : bool
}.

(** Modelled from the spec: the methods of the missing executor; section
    4.1, "method is one of GET/POST/PUT/DELETE". *)
Inductive HttpMethod : Type := GET | POST | PUT | DELETE.

(** A file handle, by its name. *)
Definition File : Type := string.

(** Modelled from the spec: the bodies the missing executor sends; section
    4.1, multipart for a file-bearing request, JSON for every other. *)
Inductive Payload : Type :=
| NoBody
| JsonBody (v : jsval)
| MultipartBody (file : File) (metadata : jsval).

(** Modelled from the spec: the missing executor's input; section 3,
    RequestDescriptor. *)
Record RequestDescriptor : Type := mkDescriptor {
  rd_method : HttpMethod;
  rd_path : string;
  rd_query : list (string * jsval);
  rd_body : Payload
}.

(** Modelled from the spec: what the missing executor hands to the
    transport: the descriptor under the server URL, with the authorization
    header when a token is set. *)
Record HttpRequest : Type := mkHttpRequest {
  http_method : HttpMethod;
  http_url : string;
  http_query : list (string * jsval);
  http_authorization : option string;
  http_body : Payload
}.

(** Modelled from the spec: what the transport answers the missing
    executor: no response at all (section 4.1, "network-level failure"), or
    a status and a parsed body, if any. *)
Inductive Outcome : Type :=
| NetworkFailure (cause : Error)
| HttpResponse (code : Z) (payload : option jsval).

(** Modelled from the spec: the "generic fetch-capable transport
    provided by the host environment" (section 1) that the missing executor
    delegates to. *)
Definition Transport : Type := HttpRequest -> Outcome.

(** Modelled from the spec: where the missing [login] and [logout]
    redirect; section 6, the login page with its return URL and app id, or a
    given URL. *)
Inductive Navigation : Type :=
| LoginPage (from_url : string) (app : AppId)
| Redirect (url : string).

(** Modelled from the spec: the environment the missing token store and
    executor act on (section 9, the injected Environment): the token
    parameter of the current URL, the persisted token, the token in memory,
    the requests sent so far, the current location and the navigation
    started, if any. *)
Record ClientState : Type := mkClientState {
  url_token : option string;
  storage : option string;
  memory : option string;
  requests : list HttpRequest;
  href : string;
  navigation : option Navigation
}.

(** ** Auth Token Store (section 4.2) *)
Module TokenStore.

(** Modelled from the spec: [get()] of the missing token store, "the
    current token (storage-backed) or null". *)
Definition get (st : ClientState) : option string :=
  match memory st with
  | Some t => Some t
  | None => storage st
  end.

(** Modelled from the spec: [initFromEnvironment()] of the missing token
    store: a token in the URL is persisted and stripped from the URL and
    returned; else the persisted one; else null. *)
Definition initFromEnvironment : JS ClientState (option string) :=
  fun st =>
    match url_token st with
    | Some t =>
        (Normal (Some t),
         mkClientState None (Some t) (memory st) (requests st) (href st) (navigation st))
    | None => (Normal (storage st), st)
    end.

(** Modelled from the spec: [set(token, persist)] of the missing token
    store. *)
Definition set (t : string) (persist : bool) : JS ClientState unit :=
  modify (fun st =>
    mkClientState (url_token st) (if persist then Some t else storage st) (Some t)
                  (requests st) (href st) (navigation st)).

(** Modelled from the spec: [remove()] of the missing token store: clears
    the token in memory and the persisted one. *)
Definition remove : JS ClientState unit :=
  modify (fun st =>
    mkClientState (url_token st) None None (requests st) (href st) (navigation st)).

End TokenStore.

(** ** Request Executor (section 4.1) *)
Module Executor.
Section Executor.
Context {rt : Runtime}.
Variable transport : Transport.
Variable cfg : Config.

(** Modelled from the spec: the app id as the missing executor writes
    it in a path. *)
Definition app_segment (a : AppId) : string :=
  match a with
  | AppIdString s => s
  | AppIdNumber n => Number_toString n
  end.

(** Modelled from the spec: the root of the paths the missing executor
    requests, [{serverUrl}/api/apps/{appId}] of section 6. *)
Definition api_root : string :=
  cfg_serverUrl cfg ++ "/api/apps/" ++ app_segment (cfg_appId cfg).

Definition text_field (v : jsval) (key : string) : option string :=
  match optional_get v key with
  | JString s => Some s
  | _ => None
  end.

Definition present (v : jsval) : option jsval :=
  match v with
  | JUndefined => None
  | _ => Some v
  end.

(** Modelled from the spec: the error the missing executor builds from a
    non-2xx response, "using the response status and any parsed error body
    (code, message, data)". The spec words no message for a body without
    one; the model leaves it empty. *)
Definition http_error (code : Z) (payload : option jsval) : Base44Error :=
  let parsed := match payload with Some v => v | None => JUndefined end in
  mkBase44Error
    (match text_field parsed "message" with Some m => m | None => "" end)
    (Some code)
    (text_field parsed "code")
    (present (optional_get parsed "data"))
    None.

(** Modelled from the spec: the error the missing executor builds when no
    response arrives: "no status", the original error wrapped as
    [originalError]. *)
Definition transport_error (cause : Error) : Base44Error :=
  mkBase44Error (err_message cause) None None None (Some cause).

(** Modelled from the spec: the statuses the missing executor takes for
    success; section 4.1 rejects "on a non-2xx HTTP status". *)
Definition is_2xx (code : Z) : bool := ((200 <=? code) && (code <? 300))%Z.

(** Modelled from the spec: [execute] of the missing Request Executor. It
    reads the token at call time, sends one request, and classifies the
    outcome: the body as it is on success (no value for an empty body), a
    [Base44Error] otherwise. *)
Definition execute (d : RequestDescriptor) : JS ClientState jsval :=
  fun st =>
    let request :=
      mkHttpRequest (rd_method d) (api_root ++ rd_path d) (rd_query d)
                    (TokenStore.get st) (rd_body d) in
    let st' :=
      mkClientState (url_token st) (storage st) (memory st)
                    (requests st ++ [request]) (href st) (navigation st) in
    match transport request with
    | NetworkFailure cause => (Throw (ThrownBase44 (transport_error cause)), st')
    | HttpResponse code payload =>
        if is_2xx code then
          (Normal (match payload with Some v => v | None => JUndefined end), st')
        else (Throw (ThrownBase44 (http_error code payload)), st')
    end.

End Executor.
End Executor.

(** ** Auth Module (section 4.3) *)
Module Auth.
Section Auth.
Context {rt : Runtime}.
Variable transport : Transport.
Variable cfg : Config.

(** Modelled from the spec: the error of the missing [me()] when no
    token is set, "a specific Base44Error" (section 7, AuthRequiredError);
    the spec fixes its kind, not its text. *)
Definition auth_required : Base44Error :=
  mkBase44Error "Authentication required" None None None None.

(** Modelled from the spec: [me()] of the missing Auth Module: an error
    when no token is set, else a GET of the identity endpoint. *)
Definition me : JS ClientState jsval :=
  fun st =>
    match TokenStore.get st with
    | None => (Throw (ThrownBase44 auth_required), st)
    | Some _ => Executor.execute transport cfg (mkDescriptor GET "/auth/me" [] NoBody) st
    end.

(** Modelled from the spec: [updateMe(partial)] of the missing Auth
    Module. *)
Definition updateMe (partial : jsval) : JS ClientState jsval :=
  Executor.execute transport cfg (mkDescriptor PUT "/auth/me" [] (JsonBody partial)).

(** Modelled from the spec: [isAuthenticated()] of the missing Auth
    Module: "true iff a token is present AND a lightweight identity probe
    (see me) succeeds; returns false (never throws) on probe failure". *)
Definition isAuthenticated : JS ClientState bool :=
  fun st =>
    match TokenStore.get st with
    | None => (Normal false, st)
    | Some _ => try_catch (me ;; ret true) (fun _ => ret false) st
    end.

(** Modelled from the spec: the full-page redirect of the missing
    [login] and [logout]. *)
Definition navigate (target : Navigation) : JS ClientState unit :=
  modify (fun st =>
    mkClientState (url_token st) (storage st) (memory st) (requests st) (href st) (Some target)).

(** Modelled from the spec: [login(nextUrl)] of the missing Auth Module:
    a redirect to the hosted login page with the app id and the return URL,
    the current location by default. *)
Definition login (nextUrl : option string) : JS ClientState unit :=
  fun st =>
    navigate (LoginPage (match nextUrl with Some u => u | None => href st end) (cfg_appId cfg)) st.

(** Modelled from the spec: [logout(redirectUrl)] of the missing Auth
    Module: clears the token, then redirects, to the login page by
    default. *)
Definition logout (redirectUrl : option string) : JS ClientState unit :=
  TokenStore.remove ;;
  fun st =>
    navigate (match redirectUrl with
              | Some u => Redirect u
              | None => LoginPage (href st) (cfg_appId cfg)
              end) st.

(** Modelled from the spec: [setToken(token, saveToStorage = true)] of
    the missing Auth Module. *)
Definition setToken (t : string) (saveToStorage : option bool) : JS ClientState unit :=
  TokenStore.set t (match saveToStorage with Some b => b | None => true end).

End Auth.
End Auth.

(** ** Entity Proxy Factory (section 4.4) *)
Module Entities.

(** Modelled from the spec: the options the missing entity handle reads
    as query options ([sort], [limit], [skip], [fields]; section 4.1), typed
    as the declaration [FilterOptions] types them. *)
Inductive Fields : Type :=
| FieldNames (names : list string)
| FieldText (text : string).

Record FilterOptions : Type := mkFilterOptions {
  sort : option string;
  limit : option float;
  skip : option float;
  fields : option Fields
}.

Definition option_entry {A : Type} (key : string) (f : A -> jsval) (o : option A)
  : list (string * jsval) :=
  match o with
  | Some a => [(key, f a)]
  | None => []
  end.

Definition fields_value (f : Fields) : jsval :=
  match f with
  | FieldNames names => JArray (map JString names)
  | FieldText text => JString text
  end.

(** Modelled from the spec: the query parameters the missing handle
    makes of the options that are given. *)
Definition query_options (o : FilterOptions) : list (string * jsval) :=
  option_entry "sort" JString (sort o) ++
  option_entry "limit" JNumber (limit o) ++
  option_entry "skip" JNumber (skip o) ++
  option_entry "fields" fields_value (fields o).

(** Modelled from the spec: the fields of a filter's query map, which
    the missing handle merges into the query parameters. *)
Definition query_fields (query : jsval) : list (string * jsval) :=
  match query with
  | JObject props => props
  | _ => []
  end.

Section Entities.
Context {rt : Runtime}.
Variable transport : Transport.
Variable cfg : Config.
Variable entityName : string.

(** Modelled from the spec: the two path shapes of the missing entity
    handle, [entities/{entityName}] and [entities/{entityName}/{id}]
    (section 6). *)
Definition collection : string := "/entities/" ++ entityName.

Definition item (target : string) : string := collection ++ "/" ++ target.

(** Modelled from the spec: the missing handle's way into the executor;
    each of the nine operations below is "one Request Executor call with the
    entity name embedded in the resource path" (section 4.4). *)
Definition call (d : RequestDescriptor) : JS ClientState jsval :=
  Executor.execute transport cfg d.

(** Modelled from the spec: [list] of the missing handle, an unfiltered
    query. *)
Definition list (o : FilterOptions) : JS ClientState jsval :=
  call (mkDescriptor GET collection (query_options o) NoBody).

(** Modelled from the spec: [filter] of the missing handle, the query map
    merged into the query parameters. *)
Definition filter (query : jsval) (o : FilterOptions) : JS ClientState jsval :=
  call (mkDescriptor GET collection (query_fields query ++ query_options o) NoBody).

(** Modelled from the spec: [get] of the missing handle. *)
Definition get (target : string) : JS ClientState jsval :=
  call (mkDescriptor GET (item target) [] NoBody).

(** Modelled from the spec: [create] of the missing handle. *)
Definition create (record : jsval) : JS ClientState jsval :=
  call (mkDescriptor POST collection [] (JsonBody record)).

(** Modelled from the spec: [update] of the missing handle. *)
Definition update (target : string) (changes : jsval) : JS ClientState jsval :=
  call (mkDescriptor PUT (item target) [] (JsonBody changes)).

(** Modelled from the spec: [delete] of the missing handle, which
    resolves with no value. *)
Definition delete (target : string) : JS ClientState jsval :=
  call (mkDescriptor DELETE (item target) [] NoBody) ;; ret JUndefined.

(** Modelled from the spec: [deleteMany] of the missing handle, a bulk
    delete by query, which resolves with no value. *)
Definition deleteMany (query : jsval) : JS ClientState jsval :=
  call (mkDescriptor DELETE collection (query_fields query) NoBody) ;; ret JUndefined.

(** Modelled from the spec: [bulkCreate] of the missing handle. *)
Definition bulkCreate (records : Datatypes.list jsval) : JS ClientState jsval :=
  call (mkDescriptor POST collection [] (JsonBody (JArray records))).

(** Modelled from the spec: [importEntities] of the missing handle, a
    multipart upload. *)
Definition importEntities (file : File) : JS ClientState jsval :=
  call (mkDescriptor POST collection [] (MultipartBody file JUndefined)).

End Entities.
End Entities.

(** ** Integration Proxy Factory (section 4.5) *)
Module Integrations.
Section Integrations.
Context {rt : Runtime}.
Variable transport : Transport.
Variable cfg : Config.

(** Modelled from the spec: the callable the missing integration proxy
    synthesizes for a package and an endpoint: a POST of the payload to the
    path scoped by both, multipart when it bears a file. *)
Definition endpoint (package name : string) (payload : jsval) (file : option File)
  : JS ClientState jsval :=
  Executor.execute transport cfg
    (mkDescriptor POST ("/integrations/" ++ package ++ "/" ++ name) []
       (match file with
        | Some f => MultipartBody f payload
        | None => JsonBody payload
        end)).

End Integrations.
End Integrations.

(** ** Client Factory (section 4.6) *)

(** The composed client, shaped as the declarations [EntityMethods],
    [AuthModule] and [Base44Client] shape it. *)
Module EntityHandle.
Record EntityMethods : Type := mkEntityMethods {
  list : Entities.FilterOptions -> JS ClientState jsval;
  filter : jsval -> Entities.FilterOptions -> JS ClientState jsval;
  get : string -> JS ClientState jsval;
  create : jsval -> JS ClientState jsval;
  update : string -> jsval -> JS ClientState jsval;
  delete : string -> JS ClientState jsval;
  deleteMany : jsval -> JS ClientState jsval;
  bulkCreate : Datatypes.list jsval -> JS ClientState jsval;
  importEntities : File -> JS ClientState jsval
}.
End EntityHandle.

Module AuthHandle.
Record AuthModule : Type := mkAuthModule {
  me : JS ClientState jsval;
  updateMe : jsval -> JS ClientState jsval;
  login : option string -> JS ClientState unit;
  logout : option string -> JS ClientState unit;
  setToken : string -> option bool -> JS ClientState unit;
  isAuthenticated : JS ClientState bool
}.
End AuthHandle.

Module Client.

Record Base44Client : Type := mkBase44Client {
  entities : string -> EntityHandle.EntityMethods;
  integrations : string -> string -> jsval -> option File -> JS ClientState jsval;
  auth : AuthHandle.AuthModule;
  setToken : string -> JS ClientState unit;
  getConfig : unit -> Snapshot
}.

Definition or_default {A : Type} (o : option A) (d : A) : A :=
  match o with
  | Some a => a
  | None => d
  end.

(** Modelled from the spec: the defaults the missing factory applies "for
    serverUrl/env/autoInitAuth", with the values the README gives
    (https://base44.app, prod, true); an absent [requiresAuth] counts as
    false. *)
Definition defaults (config : ClientConfig) (app : AppId) : Config :=
  mkConfig (or_default (serverUrl config) "https://base44.app")
           app
           (or_default (env config) prod)
           (or_default (requiresAuth config) false)
           (or_default (autoInitAuth config) true).

Definition env_name (e : Env) : string :=
  match e with
  | prod => "prod"
  | dev => "dev"
  end.

(** Modelled from the spec: what [getConfig()] of the missing client
    returns, "a read-only snapshot (never the live mutable config)". *)
Definition snapshot (cfg : Config) : Snapshot :=
  mkSnapshot (cfg_serverUrl cfg) (cfg_appId cfg) (env_name (cfg_env cfg)) (cfg_requiresAuth cfg).

(** Modelled from the spec: the "configuration error" the missing factory
    fails with, in the one error shape callers catch (section 7); the spec
    fixes its kind, not its text. *)
Definition ConfigurationError : thrown :=
  ThrownBase44 (mkBase44Error "appId is required" None None None None).

Section Factory.
Context {rt : Runtime}.
Variable transport : Transport.

(** Modelled from the spec: the wiring of the missing factory: every
    component bound to the one executor over the resolved configuration. *)
Definition compose (cfg : Config) : Base44Client :=
  mkBase44Client
    (fun entityName =>
       EntityHandle.mkEntityMethods
         (Entities.list transport cfg entityName)
         (Entities.filter transport cfg entityName)
         (Entities.get transport cfg entityName)
         (Entities.create transport cfg entityName)
         (Entities.update transport cfg entityName)
         (Entities.delete transport cfg entityName)
         (Entities.deleteMany transport cfg entityName)
         (Entities.bulkCreate transport cfg entityName)
         (Entities.importEntities transport cfg entityName))
    (Integrations.endpoint transport cfg)
    (AuthHandle.mkAuthModule
       (Auth.me transport cfg)
       (Auth.updateMe transport cfg)
       (Auth.login cfg)
       (Auth.logout cfg)
       Auth.setToken
       (Auth.isAuthenticated transport cfg))
    (fun t => Auth.setToken t None)
    (fun _ => snapshot cfg).

(** Modelled from the spec: [createClient(config)] of the missing
    factory: it "validates appId is present (fails fast, synchronously, with
    a configuration error if missing); applies defaults; constructs and
    wires the above components; returns a composed object". The token store
    bootstraps from the environment when [autoInitAuth] is on; a token given
    in the configuration is then set in memory. *)
Definition createClient (config : ClientConfig) : JS ClientState Base44Client :=
  match appId config with
  | None => throw ConfigurationError
  | Some app =>
      let cfg := defaults config app in
      (if cfg_autoInitAuth cfg then TokenStore.initFromEnvironment ;; ret tt else ret tt) ;;
      match token config with
      | Some t => TokenStore.set t false
      | None => ret tt
      end ;;
      ret (compose cfg)
  end.

End Factory.

(** Every operation a caller can invoke on a client, with its arguments:
    the members of the declarations [EntityMethods], [IntegrationEndpoint],
    [AuthModule] and [Base44Client]. *)
Inductive Operation : Type :=
| EntityList (entityName : string) (o : Entities.FilterOptions)
| EntityFilter (entityName : string) (query : jsval) (o : Entities.FilterOptions)
| EntityGet (entityName target : string)
| EntityCreate (entityName : string) (record : jsval)
| EntityUpdate (entityName target : string) (changes : jsval)
| EntityDelete (entityName target : string)
| EntityDeleteMany (entityName : string) (query : jsval)
| EntityBulkCreate (entityName : string) (records : list jsval)
| EntityImport (entityName : string) (file : File)
| IntegrationCall (package name : string) (payload : jsval) (file : option File)
| AuthMe
| AuthUpdateMe (partial : jsval)
| AuthLogin (nextUrl : option string)
| AuthLogout (redirectUrl : option string)
| AuthSetToken (t : string) (saveToStorage : option bool)
| AuthIsAuthenticated
| ClientSetToken (t : string)
| ClientGetConfig.

Inductive Result : Type :=
| Value (v : jsval)
| Flag (b : bool)
| Done
| ConfigOf (s : Snapshot).

Definition value (m : JS ClientState jsval) : JS ClientState Result :=
  v <- m ;; ret (Value v).

Definition done (m : JS ClientState unit) : JS ClientState Result :=
  m ;; ret Done.

Definition invoke (client : Base44Client) (op : Operation) : JS ClientState Result :=
  match op with
  | EntityList e o => value (EntityHandle.list (entities client e) o)
  | EntityFilter e q o => value (EntityHandle.filter (entities client e) q o)
  | EntityGet e target => value (EntityHandle.get (entities client e) target)
  | EntityCreate e record => value (EntityHandle.create (entities client e) record)
  | EntityUpdate e target changes => value (EntityHandle.update (entities client e) target changes)
  | EntityDelete e target => value (EntityHandle.delete (entities client e) target)
  | EntityDeleteMany e q => value (EntityHandle.deleteMany (entities client e) q)
  | EntityBulkCreate e records => value (EntityHandle.bulkCreate (entities client e) records)
  | EntityImport e file => value (EntityHandle.importEntities (entities client e) file)
  | IntegrationCall package name payload file => value (integrations client package name payload file)
  | AuthMe => value (AuthHandle.me (auth client))
  | AuthUpdateMe partial => value (AuthHandle.updateMe (auth client) partial)
  | AuthLogin nextUrl => done (AuthHandle.login (auth client) nextUrl)
  | AuthLogout redirectUrl => done (AuthHandle.logout (auth client) redirectUrl)
  | AuthSetToken t save => done (AuthHandle.setToken (auth client) t save)
  | AuthIsAuthenticated => b <- AuthHandle.isAuthenticated (auth client) ;; ret (Flag b)
  | ClientSetToken t => done (setToken client t)
  | ClientGetConfig => ret (ConfigOf (getConfig client tt))
  end.

End Client.

End Sdk.

(* ================================================================= *)
(** ** Observations on a run *)

(** The handler ran to completion from a fresh response and answered with
    this status and this body. *)
Definition responds (m : JS World unit) (st : Z) (text : string) : Prop :=
  fst (m initial_world) = Normal tt /\
  statusCode (res (snd (m initial_world))) = st /\
  sent (res (snd (m initial_world))) = Some text.

(** The backend calls of a run, in order. *)
Definition calls_of (m : JS World unit) : list event := backend_calls (snd (m initial_world)).

Definition status_of (m : JS World unit) : Z := statusCode (res (snd (m initial_world))).

Definition headers_of (m : JS World unit) : list (string * list string) :=
  headers (res (snd (m initial_world))).

Definition is_update_call (e : event) : bool :=
  match e with
  | UpdateCall _ _ _ => true
  | _ => false
  end.

Definition premium : jsval := JObject [("subscription_type", JString "premium")].

Definition by_email (email : jsval) : jsval := JObject [("email", email)].

(** The text of the request's body as the morning handler reads it. *)
Definition rawBody (req : Request) : string := Buffer_concat (push_all [] (chunks req)).

(** The value a failed operation surfaces is a [Base44Error]. *)
Definition is_Base44Error (t : thrown) : Prop := exists e : Base44Error, t = ThrownBase44 e.

(** The request of the identity probe in a given state. *)
Definition probe_request {rt : Runtime} (cfg : Sdk.Config) (st : Sdk.ClientState) : Sdk.HttpRequest :=
  Sdk.mkHttpRequest Sdk.GET (Sdk.Executor.api_root cfg ++ "/auth/me") []
                    (Sdk.TokenStore.get st) Sdk.NoBody.

(** *** The paths of the morning handler's POST branch *)

Definition searching (email : jsval) : event :=
  ConsoleLog [LogText "🔍 Searching for user with email:"; LogValue email].

Definition none_found (email : jsval) : event :=
  ConsoleLog [LogText "⚠️ No user found for email:"; LogValue email].

Definition updated_log (user : Entity) : event :=
  ConsoleLog [LogText "✅ User updated to premium:"; LogValue (entity_get user "full_name")].

(** What the catch block leaves behind when [err] is thrown after the
    events [before]: the two error lines and the 500. *)
Definition caught (before : list event) (err : thrown) : World :=
  mkWorld (mkResponse 500 [] (Some "Internal server error"))
          (before ++ [ConsoleError [LogText "❌ Error:"; LogText (thrown_message err)];
                      ConsoleError [LogText "❌ Full error object:"; LogThrown err]]).

Definition answered (st : Z) (text : string) (events : list event) : World :=
  mkWorld (mkResponse st [] (Some text)) events.

Definition is_console_error (e : event) : bool :=
  match e with
  | ConsoleError _ => true
  | _ => false
  end.

Definition is_object (v : jsval) : bool :=
  match v with
  | JObject _ => true
  | _ => false
  end.

(** The values whose conversion to a string fails, told without
    converting: an object with an own [toString] property, or an array that
    holds such a value. *)
Fixpoint shadows_toString (v : jsval) : bool :=
  match v with
  | JObject props =>
      match own_property props "toString" with
      | Some _ => true
      | None => false
      end
  | JArray items => existsb shadows_toString items
  | _ => false
  end.

(** What the morning handler looks at in a settled filter call: its
    rejection, or the first user, if there is one. *)
Definition first_user (c : completion (list Entity)) : completion (option Entity) :=
  match c with
  | Normal users => Normal (hd_error users)
  | Throw err => Throw err
  end.

(** What it looks at in a settled update call: whether it rejected, and
    with what. *)
Definition rejection {A : Type} (c : completion A) : option thrown :=
  match c with
  | Normal _ => None
  | Throw err => Some err
  end.

Section Paths.
Context {rt : Runtime}.
Variable base44 : Backend.
Variable req : Request.

(** Each way through the POST branch, with the outcome it ends in: the
    completion of the handler and the world it leaves. *)
Inductive post_outcome : completion unit * World -> Prop :=
| Unreadable (err : thrown) :
    stream_error req = Some err ->
    post_outcome (Normal tt, caught [] err)
| Unparsable (err : thrown) :
    stream_error req = None ->
    JSON_parse (rawBody req) = Throw err ->
    post_outcome (Normal tt, caught [] err)
| NoEmail (payload : jsval) :
    stream_error req = None ->
    JSON_parse (rawBody req) = Normal payload ->
    ToBoolean (MorningWebhook.payer_email payload) = false ->
    post_outcome (Normal tt, answered 400 "Email not found in payload" [])
| FilterRejected (payload : jsval) (err : thrown) :
    stream_error req = None ->
    JSON_parse (rawBody req) = Normal payload ->
    ToBoolean (MorningWebhook.payer_email payload) = true ->
    filter_reply base44 "User" (by_email (MorningWebhook.payer_email payload)) = Throw err ->
    post_outcome
      (Normal tt,
       caught [searching (MorningWebhook.payer_email payload);
               FilterCall "User" (by_email (MorningWebhook.payer_email payload))] err)
| NoUser (payload : jsval) :
    stream_error req = None ->
    JSON_parse (rawBody req) = Normal payload ->
    ToBoolean (MorningWebhook.payer_email payload) = true ->
    filter_reply base44 "User" (by_email (MorningWebhook.payer_email payload)) = Normal [] ->
    post_outcome
      (Normal tt,
       answered 404 "User not found"
         [searching (MorningWebhook.payer_email payload);
          FilterCall "User" (by_email (MorningWebhook.payer_email payload));
          none_found (MorningWebhook.payer_email payload)])
| UpdateRejected (payload : jsval) (user : Entity) (others : list Entity) (err : thrown) :
    stream_error req = None ->
    JSON_parse (rawBody req) = Normal payload ->
    ToBoolean (MorningWebhook.payer_email payload) = true ->
    filter_reply base44 "User" (by_email (MorningWebhook.payer_email payload))
      = Normal (user :: others) ->
    update_reply base44 "User" (id user) premium = Throw err ->
    post_outcome
      (Normal tt,
       caught [searching (MorningWebhook.payer_email payload);
               FilterCall "User" (by_email (MorningWebhook.payer_email payload));
               UpdateCall "User" (id user) premium] err)
| NameUnprintable (payload : jsval) (user : Entity) (others : list Entity) (updated : Entity) :
    stream_error req = None ->
    JSON_parse (rawBody req) = Normal payload ->
    ToBoolean (MorningWebhook.payer_email payload) = true ->
    filter_reply base44 "User" (by_email (MorningWebhook.payer_email payload))
      = Normal (user :: others) ->
    update_reply base44 "User" (id user) premium = Normal updated ->
    ToString (entity_get user "full_name") = None ->
    post_outcome
      (Normal tt,
       caught [searching (MorningWebhook.payer_email payload);
               FilterCall "User" (by_email (MorningWebhook.payer_email payload));
               UpdateCall "User" (id user) premium;
               updated_log user]
              (TypeError "Cannot convert object to primitive value"))
| Updated (payload : jsval) (user : Entity) (others : list Entity) (updated : Entity)
    (full_name : string) :
    stream_error req = None ->
    JSON_parse (rawBody req) = Normal payload ->
    ToBoolean (MorningWebhook.payer_email payload) = true ->
    filter_reply base44 "User" (by_email (MorningWebhook.payer_email payload))
      = Normal (user :: others) ->
    update_reply base44 "User" (id user) premium = Normal updated ->
    ToString (entity_get user "full_name") = Some full_name ->
    post_outcome
      (Normal tt,
       answered 200 ("User " ++ full_name ++ " updated to premium")
         [searching (MorningWebhook.payer_email payload);
          FilterCall "User" (by_email (MorningWebhook.payer_email payload));
          UpdateCall "User" (id user) premium;
          updated_log user]).

End Paths.

Ltac js_unfold :=
  unfold responds, calls_of, status_of, headers_of,
    MorningWebhook.handler, MorningWebhook.on_post, SimpleWebhook.handler,
    entities_filter, entities_update, read_stream, template_hole,
    console_log, console_error, emit, res_status, res_setHeader, res_send, res_end,
    try_catch, bind, ret, throw, modify, of_completion, backend_calls, rawBody in *.

(* ================================================================= *)
(** ** Recorded requests and backends *)

(** A runtime for the requests recorded below. Its [JSON_parse] is
    [JSON.parse] on the recorded texts and a SyntaxError elsewhere; its
    [Number_toString] prints integral doubles below 2^53 in decimal, as
    JavaScript does, and is not meant for other doubles (the recorded
    numbers are integral). *)
Module Sample.

Definition quote : string := String "034"%char "".

Definition quoted (s : string) : string := quote ++ s ++ quote.

Definition decimal (z : Z) : string := DecimalString.NilZero.string_of_int (Z.to_int z).

Definition integral_toString (n : float) : string :=
  match Prim2SF n with
  | S754_nan => "NaN"
  | S754_infinity false => "Infinity"
  | S754_infinity true => "-Infinity"
  | S754_zero _ => "0"
  | S754_finite s m e =>
      let magnitude :=
        if (0 <=? e)%Z then (Z.pos m * 2 ^ e)%Z else (Z.pos m / 2 ^ (- e))%Z in
      decimal (if s then (- magnitude)%Z else magnitude)
  end.

(** [{"payer":{"email":"dana@example.com"}}], as one text and as the two
    chunks it arrives in. *)
Definition dana_head : string := "{" ++ quoted "payer" ++ ":{" ++ quoted "email" ++ ":".
Definition dana_tail : string := quoted "dana@example.com" ++ "}}".
Definition dana_text : string := dana_head ++ dana_tail.
Definition dana_payload : jsval :=
  JObject [("payer", JObject [("email", JString "dana@example.com")])].

(** [{"order":17}]: no payer. *)
Definition order_text : string := "{" ++ quoted "order" ++ ":17}".
Definition order_payload : jsval := JObject [("order", JNumber 17%float)].

Definition recorded : list (string * jsval) :=
  [(dana_text, dana_payload); (order_text, order_payload)].

Definition parse_recorded (text : string) : completion jsval :=
  match own_property recorded text with
  | Some v => Normal v
  | None => Throw (ThrownError (mkError "SyntaxError" "Unexpected token"))
  end.

Definition runtime : Runtime :=
  {| Number_toString := integral_toString; JSON_parse := parse_recorded |}.

Definition dana : Entity :=
  mkEntity "u-17" [("email", JString "dana@example.com"); ("full_name", JString "Dana Levi")].

Definition dana_premium : Entity :=
  mkEntity "u-17" [("email", JString "dana@example.com"); ("full_name", JString "Dana Levi");
                   ("subscription_type", JString "premium")].

Definition knows_dana (entity : string) (query : jsval) : completion (list Entity) :=
  match optional_get query "email" with
  | JString "dana@example.com" => Normal [dana]
  | _ => Normal []
  end.

(** A backend that knows Dana and accepts the update. *)
Definition steady : Backend :=
  mkBackend knows_dana (fun _ _ _ => Normal dana_premium).

(** A backend that knows Dana and whose update call fails: the connection
    drops, and the SDK rejects with its error. *)
Definition dropping : Backend :=
  mkBackend knows_dana
    (fun _ _ _ =>
       Throw (ThrownBase44
                (mkBase44Error "Network Error" None None None
                   (Some (mkError "TypeError" "fetch failed"))))).

(** A backend with no users. *)
Definition deserted : Backend :=
  mkBackend (fun _ _ => Normal []) (fun _ _ _ => Normal dana_premium).

Definition post_dana : Request := mkRequest "POST" [dana_head; dana_tail] None JUndefined.

Definition post_order : Request := mkRequest "POST" [order_text] None JUndefined.

Definition get_probe : Request := mkRequest "GET" [] None JUndefined.

Definition delete_probe : Request := mkRequest "DELETE" [] None JUndefined.

(** Bodies as the simpler handler receives them, already parsed. *)
Definition parsed_post (body : jsval) : Request := mkRequest "POST" [] None body.

Definition email_body (email : jsval) : jsval := JObject [("payer", JObject [("email", email)])].

(** [{"payer":{"email":{"toString":1}}}]. *)
Definition shadowing_email : jsval := JObject [("toString", JNumber 1%float)].

(** Transports: one that never connects, one that answers 401, one that
    answers 200 with a user. *)
Definition offline : Sdk.Transport :=
  fun _ => Sdk.NetworkFailure (mkError "TypeError" "fetch failed").

Definition unauthorized : Sdk.Transport :=
  fun _ => Sdk.HttpResponse 401
             (Some (JObject [("message", JString "Unauthorized"); ("code", JString "unauthorized")])).

Definition serving : Sdk.Transport :=
  fun _ => Sdk.HttpResponse 200
             (Some (JObject [("id", JString "u-17"); ("full_name", JString "Dana Levi")])).

Definition no_config : Sdk.ClientConfig := Sdk.mkClientConfig None None None None None None.

Definition app_config : Sdk.ClientConfig :=
  Sdk.mkClientConfig None (Some (Sdk.AppIdString "app-1")) None None None None.

Definition app_resolved : Sdk.Config :=
  Sdk.Client.defaults app_config (Sdk.AppIdString "app-1").

Definition signed_out : Sdk.ClientState :=
  Sdk.mkClientState None None None [] "https://shop.example/cart" None.

Definition signed_in : Sdk.ClientState :=
  Sdk.mkClientState None (Some "tok-1") (Some "tok-1") [] "https://shop.example/cart" None.

End Sample.

(** More recorded requests and backends, for the paths that fail. *)
Module Edge.

Definition aborted : thrown := ThrownError (mkError "Error" "aborted").

Definition refused : thrown :=
  ThrownBase44 (mkBase44Error "Unauthorized" (Some 401%Z) (Some "unauthorized") None None).

(** A body cut off after its first brace, a body whose stream aborts, and
    Dana's body arriving whole, with a [req.body] beside it. *)
Definition post_cut : Request := mkRequest "POST" ["{"] None JUndefined.

Definition post_aborted : Request := mkRequest "POST" [Sample.dana_head] (Some aborted) JUndefined.

Definition post_dana_whole : Request :=
  mkRequest "POST" [Sample.dana_text] None (JString "not read").

(** A backend that refuses the filter call. *)
Definition refusing : Backend :=
  mkBackend (fun _ _ => Throw refused) (fun _ _ _ => Normal Sample.dana_premium).

Definition twin : Entity :=
  mkEntity "u-18" [("email", JString "dana@example.com"); ("full_name", JString "Dana L.")].

(** A backend with two users under Dana's email, whose update resolves
    with the entity unchanged. *)
Definition crowded : Backend :=
  mkBackend
    (fun entity query =>
       match Sample.knows_dana entity query with
       | Normal [] => Normal []
       | Normal users => Normal (users ++ [twin])%list
       | Throw err => Throw err
       end)
    (fun _ _ _ => Normal Sample.dana).

(** [{"payer":{"email":[1,[{"toString":null}]]}}], parsed. *)
Definition nested_shadow : jsval :=
  JArray [JNumber 1%float; JArray [JObject [("toString", JNull)]]].

End Edge.

Section HandlerFacts.
Context {rt : Runtime}.

Lemma method_other (m : string) :
  m <> "GET" -> m <> "POST" -> String.eqb m "GET" = false /\ String.eqb m "POST" = false.
Proof. intros H1 H2. split; apply String.eqb_neq; assumption. Qed.

(** C2. On a GET request each of the two handlers answers 200 with the
    fixed text "GET is working" and makes no backend call. *)
Theorem get_is_working (base44 : Backend) (req : Request) :
  method req = "GET" ->
  responds (MorningWebhook.handler base44 req) 200 "GET is working" /\
  calls_of (MorningWebhook.handler base44 req) = [] /\
  responds (SimpleWebhook.handler req) 200 "GET is working" /\
  calls_of (SimpleWebhook.handler req) = [].
Proof.
  intros Hm. js_unfold. rewrite Hm. simpl. repeat split; reflexivity.
Qed.

(** C8. On a request whose method is neither GET nor POST each of the two
    handlers sets the Allow header to the list POST, GET, answers 405 and
    makes no backend call. *)
Theorem method_not_allowed (base44 : Backend) (req : Request) :
  method req <> "GET" -> method req <> "POST" ->
  headers_of (MorningWebhook.handler base44 req) = [("Allow", ["POST"; "GET"])] /\
  responds (MorningWebhook.handler base44 req) 405 ("Method " ++ method req ++ " Not Allowed") /\
  calls_of (MorningWebhook.handler base44 req) = [] /\
  headers_of (SimpleWebhook.handler req) = [("Allow", ["POST"; "GET"])] /\
  responds (SimpleWebhook.handler req) 405 ("Method " ++ method req ++ " Not Allowed") /\
  calls_of (SimpleWebhook.handler req) = [].
Proof.
  intros H1 H2. destruct (method_other _ H1 H2) as [E1 E2].
  js_unfold. rewrite E1, E2. simpl. repeat split; reflexivity.
Qed.

(** The run of the POST branch once the body has been read and parsed and
    the payer email is truthy: everything hangs on the two backend replies. *)
Lemma ToString_none_truthy (v : jsval) : ToString v = None -> ToBoolean v = true.
Proof.
  destruct v as [ | | [ | ] | n | s | items | props ]; simpl; intros H;
    try discriminate; reflexivity.
Qed.

Lemma falsy_email_400 (base44 : Backend) (req : Request) (payload : jsval) :
  method req = "POST" ->
  stream_error req = None ->
  JSON_parse (rawBody req) = Normal payload ->
  ToBoolean (MorningWebhook.payer_email payload) = false ->
  responds (MorningWebhook.handler base44 req) 400 "Email not found in payload" /\
  trace (snd (MorningWebhook.handler base44 req initial_world)) = [].
Proof.
  intros Hm Hs Hp He. js_unfold. rewrite Hm, Hs. simpl. rewrite Hp, He. simpl.
  repeat split; reflexivity.
Qed.

Lemma no_user_404 (base44 : Backend) (req : Request) (payload : jsval) :
  method req = "POST" ->
  stream_error req = None ->
  JSON_parse (rawBody req) = Normal payload ->
  ToBoolean (MorningWebhook.payer_email payload) = true ->
  filter_reply base44 "User" (by_email (MorningWebhook.payer_email payload)) = Normal [] ->
  responds (MorningWebhook.handler base44 req) 404 "User not found" /\
  calls_of (MorningWebhook.handler base44 req) =
    [FilterCall "User" (by_email (MorningWebhook.payer_email payload))].
Proof.
  intros Hm Hs Hp He Hf. js_unfold. unfold by_email in Hf. rewrite Hm, Hs. simpl.
  rewrite Hp, He. simpl. rewrite Hf. simpl. repeat split; reflexivity.
Qed.

(** Every update call of a POST run comes after a filter reply with at
    least one user, and targets the first of them. *)
Lemma update_needs_user (base44 : Backend) (req : Request)
    (entity target : string) (changes : jsval) :
  method req = "POST" ->
  In (UpdateCall entity target changes) (trace (snd (MorningWebhook.handler base44 req initial_world))) ->
  exists payload user others,
    JSON_parse (rawBody req) = Normal payload /\
    ToBoolean (MorningWebhook.payer_email payload) = true /\
    filter_reply base44 "User" (by_email (MorningWebhook.payer_email payload))
      = Normal (user :: others) /\
    entity = "User" /\ target = id user /\ changes = premium.
Proof.
  intros Hm. js_unfold. unfold by_email, premium. rewrite Hm. simpl.
  destruct (stream_error req) as [e | ]; simpl.
  { intros [H | [H | []]]; discriminate. }
  destruct (JSON_parse _) as [payload | e] eqn:Hp; simpl.
  2: { intros [H | [H | []]]; discriminate. }
  destruct (ToBoolean (MorningWebhook.payer_email payload)) eqn:He; simpl.
  2: { intros []. }
  destruct (filter_reply base44 _ _) as [users | e] eqn:Hf; simpl.
  2: { intros [H | [H | [H | [H | []]]]]; discriminate. }
  destruct users as [ | user others]; simpl.
  { intros [H | [H | [H | []]]]; discriminate. }
  intros Hin. exists payload, user, others.
  assert (Hu : UpdateCall entity target changes = UpdateCall "User" (id user) premium).
  { unfold premium.
    destruct (update_reply base44 _ _ _) as [u' | e]; simpl in Hin.
    - destruct (ToString (entity_get user "full_name")); simpl in Hin;
        repeat (destruct Hin as [Hin | Hin]; [ try discriminate; symmetry; exact Hin | ]);
        destruct Hin.
    - repeat (destruct Hin as [Hin | Hin]; [ try discriminate; symmetry; exact Hin | ]);
        destruct Hin. }
  injection Hu as -> -> ->. repeat split; try reflexivity; assumption.
Qed.

(** C9. On a POST request to the morning webhook handler: a parsed body
    without [payer.email] is answered 400 before any backend call; an empty
    reply of the User filter by that email is answered 404 with no update
    issued; and an update is issued only when the filter returned at least
    one user. *)
Theorem post_guards (base44 : Backend) (req : Request) :
  method req = "POST" ->
  (forall payload,
     stream_error req = None ->
     JSON_parse (rawBody req) = Normal payload ->
     MorningWebhook.payer_email payload = JUndefined ->
     responds (MorningWebhook.handler base44 req) 400 "Email not found in payload" /\
     calls_of (MorningWebhook.handler base44 req) = []) /\
  (forall payload,
     stream_error req = None ->
     JSON_parse (rawBody req) = Normal payload ->
     ToBoolean (MorningWebhook.payer_email payload) = true ->
     filter_reply base44 "User" (by_email (MorningWebhook.payer_email payload)) = Normal [] ->
     responds (MorningWebhook.handler base44 req) 404 "User not found" /\
     filter is_update_call (calls_of (MorningWebhook.handler base44 req)) = []) /\
  (forall entity target changes,
     In (UpdateCall entity target changes) (calls_of (MorningWebhook.handler base44 req)) ->
     exists payload user others,
       JSON_parse (rawBody req) = Normal payload /\
       filter_reply base44 "User" (by_email (MorningWebhook.payer_email payload))
         = Normal (user :: others) /\
       target = id user).
Proof.
  intros Hm. split; [ | split ].
  - intros payload Hs Hp He.
    destruct (falsy_email_400 base44 req payload Hm Hs Hp) as [Hr Ht].
    { rewrite He. reflexivity. }
    split; [ exact Hr | ]. unfold calls_of, backend_calls. rewrite Ht. reflexivity.
  - intros payload Hs Hp He Hf.
    destruct (no_user_404 base44 req payload Hm Hs Hp He Hf) as [Hr Hc].
    split; [ exact Hr | ]. rewrite Hc. reflexivity.
  - intros entity target changes Hin.
    unfold calls_of, backend_calls in Hin. apply filter_In in Hin. destruct Hin as [Hin _].
    destruct (update_needs_user base44 req entity target changes Hm Hin)
      as (payload & user & others & Hp & _ & Hf & _ & Ht & _).
    exists payload, user, others. repeat split; assumption.
Qed.

(** C1, as the code has it. On a POST request whose body reads and parses
    with a truthy payer email for which the User filter returns at least
    one user, the handler makes one filter call by that email and then one
    update call setting [subscription_type] to "premium" on the first
    returned user's id. It answers 200 when the update call resolves and the
    user's [full_name] converts to a string, and 500 when the update call
    rejects or that conversion fails. *)
Theorem premium_update (base44 : Backend) (req : Request)
    (payload : jsval) (user : Entity) (others : list Entity) :
  method req = "POST" ->
  stream_error req = None ->
  JSON_parse (rawBody req) = Normal payload ->
  ToBoolean (MorningWebhook.payer_email payload) = true ->
  filter_reply base44 "User" (by_email (MorningWebhook.payer_email payload))
    = Normal (user :: others) ->
  calls_of (MorningWebhook.handler base44 req) =
    [FilterCall "User" (by_email (MorningWebhook.payer_email payload));
     UpdateCall "User" (id user) premium] /\
  (forall updated full_name,
     update_reply base44 "User" (id user) premium = Normal updated ->
     ToString (entity_get user "full_name") = Some full_name ->
     responds (MorningWebhook.handler base44 req) 200
       ("User " ++ full_name ++ " updated to premium")) /\
  (forall err,
     update_reply base44 "User" (id user) premium = Throw err ->
     responds (MorningWebhook.handler base44 req) 500 "Internal server error") /\
  (ToString (entity_get user "full_name") = None ->
   responds (MorningWebhook.handler base44 req) 500 "Internal server error").
Proof.
  intros Hm Hs Hp He Hf. js_unfold. unfold by_email, premium in *.
  rewrite Hm, Hs. simpl. rewrite Hp, He. simpl. rewrite Hf. simpl.
  destruct (update_reply base44 "User" (id user) _) as [updated | err] eqn:Hu; simpl.
  - destruct (ToString (entity_get user "full_name")) as [full_name | ] eqn:Hn; simpl.
    + split; [ reflexivity | ]. split; [ | split ].
      * intros updated' full_name' _ Hn'. injection Hn' as <-. repeat split; reflexivity.
      * intros err Herr. discriminate.
      * intros Hnone. discriminate.
    + split; [ reflexivity | ]. split; [ | split ].
      * intros updated' full_name' _ Hn'. discriminate.
      * intros err Herr. discriminate.
      * intros _. repeat split; reflexivity.
  - split; [ reflexivity | ]. split; [ | split ].
    + intros updated full_name Hn'. discriminate.
    + intros err' _. repeat split; reflexivity.
    + intros _. repeat split; reflexivity.
Qed.

(** C10, as the code has it. On a POST request to the simpler handler,
    whatever the body is: when [payer.email] is absent or falsy the answer is
    200 with "Webhook received for unknown"; when it is truthy and converts
    to a string the answer is 200 with "Webhook received for " followed by
    that string (the email itself when it is a string); the handler throws
    exactly when [payer.email] does not convert to a string, and then sends
    nothing. It makes no backend call. *)
Theorem webhook_received (req : Request) :
  method req = "POST" ->
  let email := optional_get (optional_get (body req) "payer") "email" in
  (ToBoolean email = false ->
   responds (SimpleWebhook.handler req) 200 "Webhook received for unknown") /\
  (forall text,
     ToBoolean email = true -> ToString email = Some text ->
     responds (SimpleWebhook.handler req) 200 ("Webhook received for " ++ text)) /\
  (forall s,
     email = JString s -> s <> "" ->
     responds (SimpleWebhook.handler req) 200 ("Webhook received for " ++ s)) /\
  ((exists err, fst (SimpleWebhook.handler req initial_world) = Throw err) <->
   ToString email = None) /\
  (ToString email = None ->
   fst (SimpleWebhook.handler req initial_world)
     = Throw (TypeError "Cannot convert object to primitive value") /\
   sent (res (snd (SimpleWebhook.handler req initial_world))) = None) /\
  calls_of (SimpleWebhook.handler req) = [].
Proof.
  intros Hm email. js_unfold. unfold js_or. rewrite Hm. simpl. fold email.
  destruct (ToBoolean email) eqn:Hb; simpl.
  - destruct (ToString email) as [text | ] eqn:Ht; simpl.
    + split; [ discriminate | ]. split; [ | split; [ | split; [ | split ] ] ].
      * intros text' _ H. injection H as <-. repeat split; reflexivity.
      * intros s Hs _. rewrite Hs in Ht. simpl in Ht. injection Ht as <-.
        repeat split; reflexivity.
      * split; [ intros [err H]; discriminate | discriminate ].
      * discriminate.
      * reflexivity.
    + split; [ discriminate | ]. split; [ | split; [ | split; [ | split ] ] ].
      * intros text' _ H. discriminate.
      * intros s Hs _. rewrite Hs in Ht. simpl in Ht. discriminate.
      * split; [ reflexivity | intros _; eexists; reflexivity ].
      * intros _. split; reflexivity.
      * reflexivity.
  - pose proof (ToString_none_truthy email) as Hn.
    split; [ intros _; repeat split; reflexivity | ].
    split; [ discriminate | ].
    split.
    { intros s Hs Hne. rewrite Hs in Hb. simpl in Hb.
      apply negb_false_iff, String.eqb_eq in Hb. contradiction. }
    split.
    { split; [ intros [err H]; discriminate | ].
      intros H. apply Hn in H. congruence. }
    split; [ | reflexivity ].
    intros H. apply Hn in H. congruence.
Qed.

(** The morning handler, unlike the simpler one, answers every request:
    what its POST branch throws, the catch block turns into a 500. *)
Lemma morning_handler_always_answers (base44 : Backend) (req : Request) :
  fst (MorningWebhook.handler base44 req initial_world) = Normal tt /\
  sent (res (snd (MorningWebhook.handler base44 req initial_world))) <> None.
Proof.
  js_unfold.
  destruct (String.eqb (method req) "GET"); [ split; [ reflexivity | discriminate ] | ].
  destruct (String.eqb (method req) "POST"); [ | split; [ reflexivity | discriminate ] ].
  destruct (stream_error req) as [e | ]; simpl; [ split; [ reflexivity | discriminate ] | ].
  destruct (JSON_parse _) as [payload | e]; simpl; [ | split; [ reflexivity | discriminate ] ].
  destruct (ToBoolean (MorningWebhook.payer_email payload)); simpl;
    [ | split; [ reflexivity | discriminate ] ].
  destruct (filter_reply base44 _ _) as [users | e]; simpl;
    [ | split; [ reflexivity | discriminate ] ].
  destruct users as [ | user others]; simpl; [ split; [ reflexivity | discriminate ] | ].
  destruct (update_reply base44 _ _ _) as [updated | e]; simpl;
    [ | split; [ reflexivity | discriminate ] ].
  destruct (ToString (entity_get user "full_name")); simpl; split;
    try reflexivity; discriminate.
Qed.

End HandlerFacts.

(* ================================================================= *)
(** ** The declared surface *)

(** The configuration type as declared: five members, [appId] the only
    required one. *)
Lemma ClientConfig_members :
  Dts.members Dts.ClientConfig =
    [ Dts.Property "serverUrl" true Dts.TString;
      Dts.Property "appId" false (Dts.TUnion [Dts.TString; Dts.TNumber]);
      Dts.Property "env" true (Dts.TUnion [Dts.TLiteral "prod"; Dts.TLiteral "dev"]);
      Dts.Property "token" true Dts.TString;
      Dts.Property "requiresAuth" true Dts.TBoolean ] /\
  Dts.required_names Dts.ClientConfig = ["appId"].
Proof. split; reflexivity. Qed.

(** C3, where the code departs from it. The declared configuration type
    has the members serverUrl, appId, env, token and requiresAuth and no
    member autoInitAuth: the configuration of the README's basic setup,
    which passes [autoInitAuth: true], is not accepted as a literal of that
    type. *)
Theorem ClientConfig_has_no_autoInitAuth :
  Dts.member_names Dts.ClientConfig = ["serverUrl"; "appId"; "env"; "token"; "requiresAuth"] /\
  Dts.mem "autoInitAuth" (Dts.member_names Dts.ClientConfig) = false /\
  Dts.property_type Dts.ClientConfig "autoInitAuth" = None /\
  Dts.excess_properties Dts.ClientConfig Dts.readme_config_keys = ["autoInitAuth"] /\
  Dts.literal_accepted Dts.ClientConfig Dts.readme_config_keys = false.
Proof. repeat split; reflexivity. Qed.

Lemma entity_handle_is_EntityMethods (entityName : string) :
  Dts.entity_handle entityName = Some Dts.EntityMethods.
Proof. reflexivity. Qed.

(** C4. For every entity name, the handle [entities[entityName]] is
    declared with exactly the nine operations list, filter, get, create,
    update, delete, deleteMany, bulkCreate and importEntities; list and
    filter resolve with a sequence of entities, get, create and update with
    one entity, delete and deleteMany with no value. *)
Theorem entity_handle_operations (entityName : string) :
  exists handle : Dts.declaration,
    Dts.entity_handle entityName = Some handle /\
    Dts.member_names handle =
      ["list"; "filter"; "get"; "create"; "update"; "delete"; "deleteMany"; "bulkCreate";
       "importEntities"] /\
    List.length (Dts.members handle) = 9%nat /\
    Dts.index_signature (Dts.members handle) = None /\
    (forall name, In name ["list"; "filter"] ->
       Dts.method_result (Dts.members handle) name
         = Some (Dts.TPromise (Dts.TArray (Dts.TNamed "Entity")))) /\
    (forall name, In name ["get"; "create"; "update"] ->
       Dts.method_result (Dts.members handle) name = Some (Dts.TPromise (Dts.TNamed "Entity"))) /\
    (forall name, In name ["delete"; "deleteMany"] ->
       Dts.method_result (Dts.members handle) name = Some (Dts.TPromise Dts.TVoid)).
Proof.
  exists Dts.EntityMethods. split; [ apply entity_handle_is_EntityMethods | ].
  repeat split; try reflexivity; intros name Hin; simpl in Hin;
    repeat (destruct Hin as [<- | Hin]; [ reflexivity | ]); destruct Hin.
Qed.

(** The error class as declared: it extends [Error], whose [message] its
    constructor requires, and adds four optional members. *)
Lemma Base44Error_declared :
  Dts.extends Dts.Base44Error = Some "Error" /\
  Dts.member_names Dts.Base44Error = ["status"; "code"; "data"; "originalError"] /\
  Dts.required_names Dts.Base44Error = [].
Proof. repeat split; reflexivity. Qed.

(* ================================================================= *)
(** ** The client core *)

Section SdkFacts.
Context {rt : Runtime}.
Variable transport : Sdk.Transport.

(** The executor sends exactly one request and rejects with nothing but
    a [Base44Error]. *)
Lemma execute_sends_one (cfg : Sdk.Config) (d : Sdk.RequestDescriptor) (st : Sdk.ClientState) :
  exists request,
    Sdk.requests (snd (Sdk.Executor.execute transport cfg d st)) = (Sdk.requests st ++ [request])%list /\
    Sdk.http_url request = Sdk.Executor.api_root cfg ++ Sdk.rd_path d /\
    Sdk.http_authorization request = Sdk.TokenStore.get st.
Proof.
  unfold Sdk.Executor.execute. eexists.
  destruct (transport _) as [cause | code payload]; [ | destruct (Sdk.Executor.is_2xx code) ];
    simpl; repeat split; reflexivity.
Qed.

Lemma execute_rejects_wrapped (cfg : Sdk.Config) (d : Sdk.RequestDescriptor)
    (st st' : Sdk.ClientState) (t : thrown) :
  Sdk.Executor.execute transport cfg d st = (Throw t, st') -> is_Base44Error t.
Proof.
  unfold Sdk.Executor.execute, is_Base44Error.
  destruct (transport _) as [cause | code payload].
  - intros H. injection H as <- _. eexists. reflexivity.
  - destruct (Sdk.Executor.is_2xx code); intros H; [ discriminate | ].
    injection H as <- _. eexists. reflexivity.
Qed.

(** A network failure surfaces wrapped: no status, the cause kept as
    [originalError]. *)
Lemma execute_wraps_network_failure (cfg : Sdk.Config) (d : Sdk.RequestDescriptor)
    (st : Sdk.ClientState) (cause : Error) :
  transport (Sdk.mkHttpRequest (Sdk.rd_method d) (Sdk.Executor.api_root cfg ++ Sdk.rd_path d)
               (Sdk.rd_query d) (Sdk.TokenStore.get st) (Sdk.rd_body d))
    = Sdk.NetworkFailure cause ->
  exists e,
    fst (Sdk.Executor.execute transport cfg d st) = Throw (ThrownBase44 e) /\
    status e = None /\ originalError e = Some cause.
Proof.
  intros H. unfold Sdk.Executor.execute. rewrite H. simpl.
  eexists. repeat split; reflexivity.
Qed.

(** A non-2xx response surfaces as a [Base44Error] carrying the status. *)
Lemma execute_wraps_http_error (cfg : Sdk.Config) (d : Sdk.RequestDescriptor)
    (st : Sdk.ClientState) (code : Z) (payload : option jsval) :
  transport (Sdk.mkHttpRequest (Sdk.rd_method d) (Sdk.Executor.api_root cfg ++ Sdk.rd_path d)
               (Sdk.rd_query d) (Sdk.TokenStore.get st) (Sdk.rd_body d))
    = Sdk.HttpResponse code payload ->
  Sdk.Executor.is_2xx code = false ->
  exists e,
    fst (Sdk.Executor.execute transport cfg d st) = Throw (ThrownBase44 e) /\
    status e = Some code.
Proof.
  intros H Hc. unfold Sdk.Executor.execute. rewrite H, Hc. simpl.
  eexists. split; reflexivity.
Qed.

Lemma me_rejects_wrapped (cfg : Sdk.Config) (st st' : Sdk.ClientState) (t : thrown) :
  Sdk.Auth.me transport cfg st = (Throw t, st') -> is_Base44Error t.
Proof.
  unfold Sdk.Auth.me. destruct (Sdk.TokenStore.get st).
  - apply execute_rejects_wrapped.
  - intros H. injection H as <- _. eexists. reflexivity.
Qed.

Lemma createClient_composes (config : Sdk.ClientConfig) (st0 st1 : Sdk.ClientState)
    (client : Sdk.Client.Base44Client) :
  Sdk.Client.createClient transport config st0 = (Normal client, st1) ->
  exists app,
    Sdk.appId config = Some app /\
    client = Sdk.Client.compose transport (Sdk.Client.defaults config app).
Proof.
  unfold Sdk.Client.createClient. destruct (Sdk.appId config) as [app | ].
  - intros H. exists app. split; [ reflexivity | ].
    unfold bind, ret, modify, Sdk.TokenStore.initFromEnvironment, Sdk.TokenStore.set in H.
    destruct (Sdk.cfg_autoInitAuth _); destruct (Sdk.url_token st0);
      destruct (Sdk.token config); simpl in H; injection H as <- _; reflexivity.
  - intros H. discriminate.
Qed.

(** A rejection of [value m] or [done m] is a rejection of [m]. *)
Lemma value_rejects (m : JS Sdk.ClientState jsval) (st st' : Sdk.ClientState) (t : thrown) :
  Sdk.Client.value m st = (Throw t, st') -> m st = (Throw t, st').
Proof.
  unfold Sdk.Client.value, bind, ret. destruct (m st) as [[v | e] s]; intros H.
  - discriminate.
  - injection H as -> ->. reflexivity.
Qed.

Lemma done_rejects (m : JS Sdk.ClientState unit) (st st' : Sdk.ClientState) (t : thrown) :
  Sdk.Client.done m st = (Throw t, st') -> m st = (Throw t, st').
Proof.
  unfold Sdk.Client.done, bind, ret. destruct (m st) as [[v | e] s]; intros H.
  - discriminate.
  - injection H as -> ->. reflexivity.
Qed.

Lemma then_rejects {A B : Type} (m : JS Sdk.ClientState A) (b : B)
    (st st' : Sdk.ClientState) (t : thrown) :
  (m ;; ret b) st = (Throw t, st') -> m st = (Throw t, st').
Proof.
  unfold bind, ret. destruct (m st) as [[v | e] s]; intros H.
  - discriminate.
  - injection H as -> ->. reflexivity.
Qed.

(** [isAuthenticated()] always resolves. *)
Lemma isAuthenticated_resolves (cfg : Sdk.Config) (st : Sdk.ClientState) :
  exists b st', Sdk.Auth.isAuthenticated transport cfg st = (Normal b, st').
Proof.
  unfold Sdk.Auth.isAuthenticated, try_catch, bind, ret.
  destruct (Sdk.TokenStore.get st) as [tok | ].
  - destruct (Sdk.Auth.me transport cfg st) as [[v | e] s']; eexists; eexists; reflexivity.
  - eexists; eexists; reflexivity.
Qed.

(** C5. Whatever operation a caller invokes on a client that
    [createClient] returned, in whatever state and whatever the transport
    answers, a failure it surfaces is a [Base44Error] value, never a raw
    error; the class has the [message] of [Error] and the optional members
    status, code, data and originalError. *)
Theorem failures_are_Base44Error
    (config : Sdk.ClientConfig) (st0 st1 : Sdk.ClientState) (client : Sdk.Client.Base44Client)
    (op : Sdk.Client.Operation) (st st' : Sdk.ClientState) (t : thrown) :
  Sdk.Client.createClient transport config st0 = (Normal client, st1) ->
  Sdk.Client.invoke client op st = (Throw t, st') ->
  is_Base44Error t /\
  (forall raw : Error, t <> ThrownError raw) /\
  Dts.extends Dts.Base44Error = Some "Error" /\
  Dts.member_names Dts.Base44Error = ["status"; "code"; "data"; "originalError"] /\
  Dts.required_names Dts.Base44Error = [].
Proof.
  intros Hc Hop.
  assert (Hb : is_Base44Error t).
  { destruct (createClient_composes _ _ _ _ Hc) as (app & _ & ->).
    set (cfg := Sdk.Client.defaults config app) in *.
    destruct op; simpl in Hop;
      try (apply value_rejects in Hop);
      try (apply done_rejects in Hop).
    - exact (execute_rejects_wrapped _ _ _ _ _ Hop).
    - exact (execute_rejects_wrapped _ _ _ _ _ Hop).
    - exact (execute_rejects_wrapped _ _ _ _ _ Hop).
    - exact (execute_rejects_wrapped _ _ _ _ _ Hop).
    - exact (execute_rejects_wrapped _ _ _ _ _ Hop).
    - apply then_rejects in Hop. exact (execute_rejects_wrapped _ _ _ _ _ Hop).
    - apply then_rejects in Hop. exact (execute_rejects_wrapped _ _ _ _ _ Hop).
    - exact (execute_rejects_wrapped _ _ _ _ _ Hop).
    - exact (execute_rejects_wrapped _ _ _ _ _ Hop).
    - exact (execute_rejects_wrapped _ _ _ _ _ Hop).
    - exact (me_rejects_wrapped _ _ _ _ Hop).
    - exact (execute_rejects_wrapped _ _ _ _ _ Hop).
    - discriminate.
    - discriminate.
    - discriminate.
    - unfold bind, ret in Hop.
      destruct (isAuthenticated_resolves cfg st) as (b & s & Hr). rewrite Hr in Hop.
      discriminate.
    - discriminate.
    - discriminate. }
  split; [ exact Hb | ]. split.
  - intros raw Hraw. destruct Hb as [e He]. congruence.
  - exact Base44Error_declared.
Qed.

(** The factory itself fails in the same shape. *)
Lemma createClient_fails_wrapped (config : Sdk.ClientConfig) (st st' : Sdk.ClientState)
    (t : thrown) :
  Sdk.Client.createClient transport config st = (Throw t, st') -> is_Base44Error t.
Proof.
  unfold Sdk.Client.createClient. destruct (Sdk.appId config) as [app | ].
  - unfold bind, ret, modify, Sdk.TokenStore.initFromEnvironment, Sdk.TokenStore.set.
    destruct (Sdk.cfg_autoInitAuth _); destruct (Sdk.url_token st);
      destruct (Sdk.token config); simpl; intros H; discriminate.
  - intros H. injection H as <- _. eexists. reflexivity.
Qed.

(** C6. Without an [appId], [createClient] fails with the configuration
    error and leaves the state as it was, no request sent; with one it
    returns a client over the configuration with its defaults applied, again
    without sending a request. The client is declared with the members
    entities, integrations, auth, setToken and getConfig. *)
Theorem createClient_requires_appId (config : Sdk.ClientConfig) (st : Sdk.ClientState) :
  (Sdk.appId config = None ->
   Sdk.Client.createClient transport config st = (Throw Sdk.Client.ConfigurationError, st)) /\
  (forall app, Sdk.appId config = Some app ->
     exists st',
       Sdk.Client.createClient transport config st
         = (Normal (Sdk.Client.compose transport (Sdk.Client.defaults config app)), st') /\
       Sdk.requests st' = Sdk.requests st /\
       Sdk.Client.getConfig (Sdk.Client.compose transport (Sdk.Client.defaults config app)) tt
         = Sdk.Client.snapshot (Sdk.Client.defaults config app)) /\
  Dts.member_names Dts.Base44Client = ["entities"; "integrations"; "auth"; "setToken"; "getConfig"] /\
  Dts.createClient =
    ([Dts.required "config" (Dts.TNamed "ClientConfig")], Dts.TNamed "Base44Client").
Proof.
  split; [ | split; [ | split; reflexivity ] ].
  - intros H. unfold Sdk.Client.createClient. rewrite H. reflexivity.
  - intros app H. unfold Sdk.Client.createClient. rewrite H.
    unfold bind, ret, modify, Sdk.TokenStore.initFromEnvironment, Sdk.TokenStore.set.
    destruct (Sdk.cfg_autoInitAuth _); destruct (Sdk.url_token st);
      destruct (Sdk.token config); simpl; eexists; repeat split; reflexivity.
Qed.

(** C7. [isAuthenticated()] resolves in every state and for every answer
    of the transport, and with [true] exactly when a token is present and
    the identity probe [me()] succeeds: without a token, and when the probe
    meets a network failure or a non-2xx status, it resolves with [false]. *)
Theorem isAuthenticated_never_rejects (cfg : Sdk.Config) (st : Sdk.ClientState) :
  exists (b : bool) (st' : Sdk.ClientState),
    Sdk.Auth.isAuthenticated transport cfg st = (Normal b, st') /\
    (b = true <->
     Sdk.TokenStore.get st <> None /\
     exists v st'', Sdk.Auth.me transport cfg st = (Normal v, st'')) /\
    (Sdk.TokenStore.get st = None -> b = false) /\
    (forall cause, transport (probe_request cfg st) = Sdk.NetworkFailure cause -> b = false) /\
    (forall code payload,
       transport (probe_request cfg st) = Sdk.HttpResponse code payload ->
       Sdk.Executor.is_2xx code = false -> b = false).
Proof.
  unfold Sdk.Auth.isAuthenticated, try_catch, bind, ret, probe_request.
  destruct (Sdk.TokenStore.get st) as [tok | ] eqn:Htok.
  - destruct (Sdk.Auth.me transport cfg st) as [[v | e] s] eqn:Hme.
    + exists true, s. split; [ reflexivity | ]. split; [ | split; [ | split ] ].
      * split; [ intros _ | reflexivity ].
        split; [ discriminate | exists v, s; reflexivity ].
      * discriminate.
      * intros cause Hnet. exfalso.
        unfold Sdk.Auth.me, Sdk.Executor.execute in Hme. rewrite Htok in Hme.
        simpl in Hme. rewrite Hnet in Hme. discriminate.
      * intros code payload Hresp Hcode. exfalso.
        unfold Sdk.Auth.me, Sdk.Executor.execute in Hme. rewrite Htok in Hme.
        simpl in Hme. rewrite Hresp, Hcode in Hme. discriminate.
    + exists false, s. split; [ reflexivity | ]. split; [ | repeat split; reflexivity ].
      split; [ discriminate | ]. intros [_ (v & s' & H)]. discriminate.
  - exists false, st. split; [ reflexivity | ]. split; [ | repeat split; reflexivity ].
    split; [ discriminate | ]. intros [H _]. contradiction.
Qed.

End SdkFacts.

(* ================================================================= *)
(** ** Every path of the handlers *)

Section MorePaths.
Context {rt : Runtime}.

(** The POST branch of the morning handler ends in one of the eight
    outcomes of [post_outcome]. *)
Lemma post_paths (base44 : Backend) (req : Request) :
  method req = "POST" ->
  post_outcome base44 req (MorningWebhook.handler base44 req initial_world).
Proof.
  intros Hm. unfold MorningWebhook.handler. rewrite Hm. simpl.
  unfold MorningWebhook.on_post, try_catch, bind, read_stream.
  destruct (stream_error req) as [err | ] eqn:Hs.
  { apply Unreadable. exact Hs. }
  unfold ret, of_completion. fold (rawBody req).
  destruct (JSON_parse (rawBody req)) as [payload | err] eqn:Hp.
  2: { apply Unparsable; [ exact Hs | exact Hp ]. }
  destruct (ToBoolean (MorningWebhook.payer_email payload)) eqn:He; simpl.
  2: { apply (NoEmail base44 req payload); [ exact Hs | exact Hp | exact He ]. }
  unfold entities_filter, bind, of_completion, console_log, emit, modify. simpl.
  fold (by_email (MorningWebhook.payer_email payload)).
  destruct (filter_reply base44 "User" _) as [users | err] eqn:Hf.
  2: { apply (FilterRejected base44 req payload err); [ exact Hs | exact Hp | exact He | exact Hf ]. }
  destruct users as [ | user others]; simpl.
  { apply (NoUser base44 req payload); [ exact Hs | exact Hp | exact He | exact Hf ]. }
  unfold entities_update, bind, of_completion, emit, modify. simpl. fold premium.
  destruct (update_reply base44 "User" (id user) premium) as [updated | err] eqn:Hu.
  2: { apply (UpdateRejected base44 req payload user others err);
       [ exact Hs | exact Hp | exact He | exact Hf | exact Hu ]. }
  unfold template_hole. simpl.
  destruct (ToString (entity_get user "full_name")) as [full_name | ] eqn:Hn.
  - apply (Updated base44 req payload user others updated full_name);
      [ exact Hs | exact Hp | exact He | exact Hf | exact Hu | exact Hn ].
  - apply (NameUnprintable base44 req payload user others updated);
      [ exact Hs | exact Hp | exact He | exact Hf | exact Hu | exact Hn ].
Qed.

Lemma eqb_POST (req : Request) : String.eqb (method req) "POST" = true -> method req = "POST".
Proof. apply String.eqb_eq. Qed.

(** The run of a request that is neither GET nor POST, and of a GET. *)
Lemma other_run (base44 : Backend) (req : Request) :
  String.eqb (method req) "GET" = false ->
  String.eqb (method req) "POST" = false ->
  MorningWebhook.handler base44 req initial_world
    = (Normal tt,
       mkWorld (mkResponse 405 [("Allow", ["POST"; "GET"])]
                  (Some ("Method " ++ method req ++ " Not Allowed"))) []).
Proof. intros H1 H2. unfold MorningWebhook.handler. rewrite H1, H2. reflexivity. Qed.

Lemma get_run (base44 : Backend) (req : Request) :
  String.eqb (method req) "GET" = true ->
  MorningWebhook.handler base44 req initial_world = (Normal tt, answered 200 "GET is working" []).
Proof. intros H. unfold MorningWebhook.handler. rewrite H. reflexivity. Qed.

(** X1. A POST whose body stream fails, or whose text [JSON.parse]
    rejects, is answered 500 "Internal server error": no backend call is
    made and the error is logged, its message first. *)
Theorem unreadable_body_500 (base44 : Backend) (req : Request) (err : thrown) :
  method req = "POST" ->
  stream_error req = Some err \/
  (stream_error req = None /\ JSON_parse (rawBody req) = Throw err) ->
  responds (MorningWebhook.handler base44 req) 500 "Internal server error" /\
  calls_of (MorningWebhook.handler base44 req) = [] /\
  trace (snd (MorningWebhook.handler base44 req initial_world)) =
    [ConsoleError [LogText "❌ Error:"; LogText (thrown_message err)];
     ConsoleError [LogText "❌ Full error object:"; LogThrown err]].
Proof.
  intros Hm Hbad.
  assert (Hrun : MorningWebhook.handler base44 req initial_world = (Normal tt, caught [] err)).
  { pose proof (post_paths base44 req Hm) as Hpath.
    destruct Hbad as [Hs | [Hs Hp]]; inversion Hpath; try congruence. }
  unfold responds, calls_of. rewrite Hrun. repeat split; reflexivity.
Qed.

(** X2. A POST with a truthy payer email whose filter call rejects is
    answered 500: the filter call is the only backend call, no update is
    issued, and the rejection is logged. *)
Theorem filter_rejected_500 (base44 : Backend) (req : Request) (payload : jsval) (err : thrown) :
  method req = "POST" ->
  stream_error req = None ->
  JSON_parse (rawBody req) = Normal payload ->
  ToBoolean (MorningWebhook.payer_email payload) = true ->
  filter_reply base44 "User" (by_email (MorningWebhook.payer_email payload)) = Throw err ->
  responds (MorningWebhook.handler base44 req) 500 "Internal server error" /\
  calls_of (MorningWebhook.handler base44 req) =
    [FilterCall "User" (by_email (MorningWebhook.payer_email payload))] /\
  In (ConsoleError [LogText "❌ Error:"; LogText (thrown_message err)])
     (trace (snd (MorningWebhook.handler base44 req initial_world))).
Proof.
  intros Hm Hs Hp He Hf.
  assert (Hrun : MorningWebhook.handler base44 req initial_world
                 = (Normal tt,
                    caught [searching (MorningWebhook.payer_email payload);
                            FilterCall "User" (by_email (MorningWebhook.payer_email payload))] err)).
  { pose proof (post_paths base44 req Hm) as Hpath.
    inversion Hpath; congruence. }
  unfold responds, calls_of. rewrite Hrun. simpl.
  repeat split; try reflexivity. right. right. left. reflexivity.
Qed.



(** X5. Whatever the request, the backend calls of the morning handler
    are none, or one filter of User by email, or that filter followed by one
    update of User setting [subscription_type] to "premium": never two
    filters, never an update first, never another entity or another
    change. *)
Theorem backend_call_discipline (base44 : Backend) (req : Request) :
  calls_of (MorningWebhook.handler base44 req) = [] \/
  (exists email,
     calls_of (MorningWebhook.handler base44 req) = [FilterCall "User" (by_email email)]) \/
  (exists email user,
     calls_of (MorningWebhook.handler base44 req) =
       [FilterCall "User" (by_email email); UpdateCall "User" (id user) premium]).
Proof.
  unfold calls_of.
  destruct (String.eqb (method req) "GET") eqn:Hg.
  { rewrite (get_run base44 req Hg). left. reflexivity. }
  destruct (String.eqb (method req) "POST") eqn:Hp.
  2: { rewrite (other_run base44 req Hg Hp). left. reflexivity. }
  destruct (post_paths base44 req (eqb_POST req Hp)); simpl.
  - left. reflexivity.
  - left. reflexivity.
  - left. reflexivity.
  - right. left. eexists. reflexivity.
  - right. left. eexists. reflexivity.
  - right. right. eexists. eexists. reflexivity.
  - right. right. eexists. eexists. reflexivity.
  - right. right. eexists. eexists. reflexivity.
Qed.

(** X6. The morning handler writes an error to the console exactly when
    it answers 500. *)
Theorem errors_logged_iff_500 (base44 : Backend) (req : Request) :
  existsb is_console_error (trace (snd (MorningWebhook.handler base44 req initial_world))) = true
  <-> status_of (MorningWebhook.handler base44 req) = 500%Z.
Proof.
  unfold status_of.
  destruct (String.eqb (method req) "GET") eqn:Hg.
  { rewrite (get_run base44 req Hg). simpl. split; discriminate. }
  destruct (String.eqb (method req) "POST") eqn:Hp.
  2: { rewrite (other_run base44 req Hg Hp). simpl. split; discriminate. }
  destruct (post_paths base44 req (eqb_POST req Hp)); simpl;
    split; intros Hgoal; try reflexivity; try discriminate.
Qed.

(** The loop over the stream pushes the chunks in order. *)
Lemma push_all_app (buffers pending : list string) :
  push_all buffers pending = (buffers ++ pending)%list.
Proof.
  revert buffers. induction pending as [ | chunk rest IH]; intros buffers; simpl.
  - rewrite app_nil_r. reflexivity.
  - rewrite IH, <- app_assoc. reflexivity.
Qed.

Lemma rawBody_concat (req : Request) : rawBody req = String.concat "" (chunks req).
Proof. unfold rawBody, Buffer_concat. rewrite push_all_app. reflexivity. Qed.

(** X7. How the body is cut into chunks does not matter, and neither
    does [req.body]: two requests with the same method, the same stream
    error and the same concatenated text get the same run of the morning
    handler. *)
Theorem chunking_is_irrelevant (base44 : Backend) (req1 req2 : Request) :
  method req1 = method req2 ->
  stream_error req1 = stream_error req2 ->
  String.concat "" (chunks req1) = String.concat "" (chunks req2) ->
  MorningWebhook.handler base44 req1 initial_world
    = MorningWebhook.handler base44 req2 initial_world.
Proof.
  intros Hm Hs Hc.
  assert (Hraw : rawBody req1 = rawBody req2) by (rewrite !rawBody_concat; exact Hc).
  unfold MorningWebhook.handler. rewrite Hm.
  destruct (String.eqb (method req2) "GET"); [ reflexivity | ].
  destruct (String.eqb (method req2) "POST"); [ | reflexivity ].
  unfold MorningWebhook.on_post, try_catch, bind, read_stream. rewrite Hs.
  destruct (stream_error req2) as [err | ]; [ reflexivity | ].
  unfold ret. fold (rawBody req1). fold (rawBody req2). rewrite Hraw. reflexivity.
Qed.

(** X8. Of a filter reply the morning handler reads the first user only,
    and of an update reply only whether it rejected: two backends that agree
    on those get the same run, whatever else the filter returns and whatever
    entity the update resolves with. *)
Theorem only_first_user_matters (b1 b2 : Backend) (req : Request) :
  (forall query,
     first_user (filter_reply b1 "User" query) = first_user (filter_reply b2 "User" query)) ->
  (forall target changes,
     rejection (update_reply b1 "User" target changes)
       = rejection (update_reply b2 "User" target changes)) ->
  MorningWebhook.handler b1 req initial_world = MorningWebhook.handler b2 req initial_world.
Proof.
  intros Hfilter Hupdate. unfold MorningWebhook.handler.
  destruct (String.eqb (method req) "GET"); [ reflexivity | ].
  destruct (String.eqb (method req) "POST"); [ | reflexivity ].
  unfold MorningWebhook.on_post, try_catch, bind, read_stream.
  destruct (stream_error req) as [err | ]; [ reflexivity | ].
  unfold ret, of_completion.
  destruct (JSON_parse _) as [payload | err]; [ | reflexivity ].
  destruct (ToBoolean (MorningWebhook.payer_email payload)); simpl; [ | reflexivity ].
  unfold entities_filter, entities_update, bind, of_completion, console_log, emit, modify.
  simpl.
  specialize (Hfilter (JObject [("email", MorningWebhook.payer_email payload)])).
  destruct (filter_reply b1 "User" _) as [users1 | err1];
    destruct (filter_reply b2 "User" _) as [users2 | err2];
    simpl in Hfilter; try discriminate.
  2: { injection Hfilter as ->. reflexivity. }
  destruct users1 as [ | user1 others1]; destruct users2 as [ | user2 others2];
    simpl in Hfilter; try discriminate; [ reflexivity | ].
  injection Hfilter as ->. simpl.
  specialize (Hupdate (id user2) (JObject [("subscription_type", JString "premium")])).
  destruct (update_reply b1 "User" _ _) as [updated1 | err1];
    destruct (update_reply b2 "User" _ _) as [updated2 | err2];
    simpl in Hupdate; try discriminate.
  - reflexivity.
  - injection Hupdate as ->. reflexivity.
Qed.

(** X9. A POST whose parsed body gives no truthy payer email, because
    the body is not an object, or its [payer] is not an object, or the email
    is [null], [false], the empty string, zero or NaN, is answered 400 with
    nothing logged and no backend call. *)
Theorem email_guard_shapes (base44 : Backend) (req : Request) (payload : jsval) :
  method req = "POST" ->
  stream_error req = None ->
  JSON_parse (rawBody req) = Normal payload ->
  is_object payload = false \/
  is_object (optional_get payload "payer") = false \/
  In (MorningWebhook.payer_email payload)
     [JNull; JBool false; JString ""; JNumber 0%float; JNumber (-0)%float; JNumber nan] ->
  responds (MorningWebhook.handler base44 req) 400 "Email not found in payload" /\
  trace (snd (MorningWebhook.handler base44 req initial_world)) = [].
Proof.
  intros Hm Hs Hp Hshape. apply (falsy_email_400 base44 req payload Hm Hs Hp).
  destruct Hshape as [Hpayload | [Hpayer | Hemail]].
  - destruct payload; try reflexivity. discriminate.
  - unfold MorningWebhook.payer_email.
    destruct (optional_get payload "payer"); try reflexivity. discriminate.
  - simpl in Hemail.
    repeat (destruct Hemail as [<- | Hemail]; [ reflexivity | ]). destruct Hemail.
Qed.

(** X10. The simpler handler never makes a backend call. When it
    completes it has sent a body with status 200 or 405; it throws on POST
    requests only, and then has sent nothing. *)
Theorem simple_handler_profile (req : Request) :
  calls_of (SimpleWebhook.handler req) = [] /\
  (fst (SimpleWebhook.handler req initial_world) = Normal tt ->
   sent (res (snd (SimpleWebhook.handler req initial_world))) <> None /\
   In (status_of (SimpleWebhook.handler req)) [200; 405]%Z) /\
  (forall err,
     fst (SimpleWebhook.handler req initial_world) = Throw err ->
     method req = "POST" /\
     sent (res (snd (SimpleWebhook.handler req initial_world))) = None).
Proof.
  js_unfold.
  destruct (String.eqb (method req) "GET") eqn:Hg.
  { simpl. repeat split; try discriminate. left. reflexivity. }
  destruct (String.eqb (method req) "POST") eqn:Hp.
  2: { simpl. repeat split; try discriminate. right. left. reflexivity. }
  apply String.eqb_eq in Hp. simpl.
  destruct (ToString _); simpl; repeat split; try discriminate; try assumption.
  left. reflexivity.
Qed.

(** X11. Neither handler sets a header on a GET or a POST request: the
    Allow header goes with the 405 only. *)
Theorem allow_header_only_on_405 (base44 : Backend) (req : Request) :
  method req = "GET" \/ method req = "POST" ->
  headers_of (MorningWebhook.handler base44 req) = [] /\
  headers_of (SimpleWebhook.handler req) = [].
Proof.
  intros [Hm | Hm]; split; unfold headers_of.
  - unfold MorningWebhook.handler. rewrite Hm. reflexivity.
  - unfold SimpleWebhook.handler. rewrite Hm. reflexivity.
  - destruct (post_paths base44 req Hm); reflexivity.
  - js_unfold. rewrite Hm. simpl. destruct (ToString _); reflexivity.
Qed.

(** X12. A POST to the simpler handler whose body is not an object, or
    whose [payer] is not an object, is answered 200 with "Webhook received
    for unknown": a missing body, [null], a string, a number and an array
    all are. *)
Theorem body_without_payer_unknown (req : Request) :
  method req = "POST" ->
  is_object (body req) = false \/ is_object (optional_get (body req) "payer") = false ->
  responds (SimpleWebhook.handler req) 200 "Webhook received for unknown".
Proof.
  intros Hm Hshape.
  assert (He : optional_get (optional_get (body req) "payer") "email" = JUndefined).
  { destruct Hshape as [Hb | Hp].
    - destruct (body req); try reflexivity. discriminate.
    - destruct (optional_get (body req) "payer"); try reflexivity. discriminate. }
  js_unfold. unfold js_or. rewrite Hm, He. simpl. repeat split; reflexivity.
Qed.

End MorePaths.

(* ================================================================= *)
(** ** Which emails the simpler handler cannot print *)

(** Induction on values through the elements of arrays. *)
Section ArrayInduction.
Variable P : jsval -> Prop.
Hypothesis case_undefined : P JUndefined.
Hypothesis case_null : P JNull.
Hypothesis case_bool : forall b, P (JBool b).
Hypothesis case_number : forall n, P (JNumber n).
Hypothesis case_string : forall s, P (JString s).
Hypothesis case_array : forall items, Forall P items -> P (JArray items).
Hypothesis case_object : forall props, P (JObject props).

Fixpoint jsval_array_ind (v : jsval) : P v :=
  match v with
  | JUndefined => case_undefined
  | JNull => case_null
  | JBool b => case_bool b
  | JNumber n => case_number n
  | JString s => case_string s
  | JArray items =>
      case_array items
        ((fix all (l : list jsval) : Forall P l :=
            match l with
            | [] => Forall_nil P
            | x :: rest => Forall_cons x (jsval_array_ind x) (all rest)
            end) items)
  | JObject props => case_object props
  end.

End ArrayInduction.

Section Shadowing.
Context {rt : Runtime}.

(** How the conversion of an array goes through its first element. *)
Lemma ToString_array_cons (x : jsval) (rest : list jsval) :
  ToString (JArray (x :: rest)) =
    let first :=
      match x with
      | JUndefined | JNull => Some ""
      | _ => ToString x
      end in
    match rest with
    | [] => first
    | _ :: _ =>
        match first, ToString (JArray rest) with
        | Some a, Some b => Some (a ++ "," ++ b)
        | _, _ => None
        end
    end.
Proof. reflexivity. Qed.

(** The conversion to a string fails exactly on the values that
    [shadows_toString] tells. *)
Lemma ToString_fails_iff (v : jsval) : ToString v = None <-> shadows_toString v = true.
Proof.
  induction v as [ | | b | n | s | items Hitems | props ] using jsval_array_ind;
    try (simpl; split; discriminate).
  - destruct b; simpl; split; discriminate.
  - change (shadows_toString (JArray items)) with (existsb shadows_toString items).
    induction Hitems as [ | x rest Hx Hrest IH].
    + simpl. split; discriminate.
    + rewrite ToString_array_cons. cbv zeta. simpl existsb. rewrite orb_true_iff.
      set (first := match x with
                    | JUndefined | JNull => Some ""
                    | _ => ToString x
                    end).
      assert (Hfirst : first = None <-> shadows_toString x = true).
      { subst first. destruct x; try exact Hx; simpl; split; discriminate. }
      destruct rest as [ | y rest'].
      * simpl. rewrite Hfirst. split; [ intros H; left; exact H | ].
        intros [H | H]; [ exact H | discriminate ].
      * destruct first as [a | ]; destruct (ToString (JArray (y :: rest'))) as [b | ].
        -- split; [ discriminate | ].
           intros [H | H]; [ apply Hfirst in H | apply IH in H ]; discriminate.
        -- split; [ intros _; right; apply IH; reflexivity | reflexivity ].
        -- split; [ intros _; left; apply Hfirst; reflexivity | reflexivity ].
        -- split; [ intros _; left; apply Hfirst; reflexivity | reflexivity ].
  - simpl. destruct (own_property props "toString"); split; try discriminate; reflexivity.
Qed.

(** X13. On a POST request the simpler handler throws exactly when
    [payer.email] is an object with an own [toString] property or an array
    that holds one, at any depth; for every other email, a string, a number,
    a boolean or [null] among them, it answers 200. *)
Theorem webhook_throws_iff_shadowed (req : Request) :
  method req = "POST" ->
  ((exists err, fst (SimpleWebhook.handler req initial_world) = Throw err) <->
   shadows_toString (optional_get (optional_get (body req) "payer") "email") = true) /\
  (shadows_toString (optional_get (optional_get (body req) "payer") "email") = false ->
   fst (SimpleWebhook.handler req initial_world) = Normal tt /\
   status_of (SimpleWebhook.handler req) = 200%Z /\
   sent (res (snd (SimpleWebhook.handler req initial_world))) <> None).
Proof.
  intros Hm.
  set (email := optional_get (optional_get (body req) "payer") "email").
  pose proof (ToString_fails_iff email) as Hfail.
  js_unfold. unfold js_or. rewrite Hm. simpl. fold email.
  destruct (ToBoolean email) eqn:Hb; simpl.
  - destruct (ToString email) as [text | ] eqn:Ht; simpl.
    + split.
      * split; [ intros [err H]; discriminate | ].
        intros H. apply Hfail in H. discriminate.
      * intros _. repeat split; discriminate.
    + assert (Hs : shadows_toString email = true) by (apply Hfail; reflexivity).
      split.
      * split; [ intros _; exact Hs | intros _; eexists; reflexivity ].
      * intros H. congruence.
  - assert (Hs : shadows_toString email = false).
    { apply not_true_is_false. intros Hs. apply Hfail in Hs.
      apply ToString_none_truthy in Hs. congruence. }
    split.
    + split; [ intros [err H]; discriminate | ]. intros H. congruence.
    + intros _. repeat split; discriminate.
Qed.

End Shadowing.

(* ================================================================= *)
(** ** More of the declared surface *)

(** X14. For every package name and every endpoint name,
    [integrations[package][name]] is declared as a callable, with no named
    member, that takes one [data] record and returns a promise of [any]. *)
Theorem integration_endpoint_callable (package name : string) :
  exists endpoint : Dts.declaration,
    Surface.integration_endpoint package name = Some endpoint /\
    Surface.call_signature (Dts.members endpoint)
      = Some ([Dts.required "data" (Dts.TRecord Dts.TString Dts.TAny)], Dts.TPromise Dts.TAny) /\
    Dts.member_names endpoint = [].
Proof. exists Dts.IntegrationEndpoint. repeat split; reflexivity. Qed.


Lemma mem_In (name : string) (names : list string) :
  Dts.mem name names = true <-> In name names.
Proof.
  unfold Dts.mem. rewrite existsb_exists. split.
  - intros (k & Hin & Heq). apply String.eqb_eq in Heq. subst k. exact Hin.
  - intros Hin. exists name. split; [ exact Hin | apply String.eqb_refl ].
Qed.

Lemma filter_nil_iff {A : Type} (f : A -> bool) (l : list A) :
  List.filter f l = [] <-> forall x, In x l -> f x = false.
Proof.
  induction l as [ | a l IH]; simpl.
  - split; [ intros _ x [] | reflexivity ].
  - destruct (f a) eqn:Hfa.
    + split; [ discriminate | ]. intros H. specialize (H a (or_introl eq_refl)). congruence.
    + rewrite IH. split.
      * intros H x [<- | Hin]; [ exact Hfa | exact (H x Hin) ].
      * intros H x Hin. apply H. right. exact Hin.
Qed.

(** X16. A configuration literal is accepted by the declared
    [ClientConfig] exactly when it has [appId] and each of its keys is one
    of serverUrl, appId, env, token and requiresAuth. *)
Theorem ClientConfig_literal_accepted_iff (keys : list string) :
  Dts.literal_accepted Dts.ClientConfig keys = true <->
  In "appId" keys /\
  forall key, In key keys -> In key ["serverUrl"; "appId"; "env"; "token"; "requiresAuth"].
Proof.
  unfold Dts.literal_accepted.
  assert (Hexcess : Dts.excess_properties Dts.ClientConfig keys = [] <->
                    forall key, In key keys ->
                      In key ["serverUrl"; "appId"; "env"; "token"; "requiresAuth"]).
  { unfold Dts.excess_properties. rewrite filter_nil_iff. split; intros H key Hin.
    - apply mem_In. apply negb_false_iff. exact (H key Hin).
    - apply negb_false_iff. apply mem_In. exact (H key Hin). }
  assert (Hmissing : Dts.missing_properties Dts.ClientConfig keys = [] <-> In "appId" keys).
  { unfold Dts.missing_properties. rewrite filter_nil_iff. split.
    - intros H. apply mem_In. apply negb_false_iff. apply H. left. reflexivity.
    - intros Hin key [<- | []]. apply negb_false_iff. apply mem_In. exact Hin. }
  destruct (Dts.excess_properties Dts.ClientConfig keys) as [ | k ks] eqn:He;
    destruct (Dts.missing_properties Dts.ClientConfig keys) as [ | m ms] eqn:Hm.
  - split; [ intros _ | reflexivity ].
    split; [ apply Hmissing | apply Hexcess ]; reflexivity.
  - split; [ discriminate | ]. intros [Hin _]. apply Hmissing in Hin. discriminate.
  - split; [ discriminate | ]. intros [_ Hall]. apply Hexcess in Hall. discriminate.
  - split; [ discriminate | ]. intros [Hin _]. apply Hmissing in Hin. discriminate.
Qed.

(* ================================================================= *)
(** ** The handlers on the recorded requests *)

Section RecordedRuns.
#[local] Existing Instance Sample.runtime.
Import Sample.

Lemma get_is_working_probe :
  responds (MorningWebhook.handler steady get_probe) 200 "GET is working" /\
  calls_of (MorningWebhook.handler steady get_probe) = [] /\
  responds (SimpleWebhook.handler get_probe) 200 "GET is working" /\
  calls_of (SimpleWebhook.handler get_probe) = [].
Proof. exact (get_is_working steady get_probe eq_refl). Defined.

Lemma method_not_allowed_delete :
  headers_of (MorningWebhook.handler steady delete_probe) = [("Allow", ["POST"; "GET"])] /\
  status_of (MorningWebhook.handler steady delete_probe) = 405%Z /\
  headers_of (SimpleWebhook.handler delete_probe) = [("Allow", ["POST"; "GET"])] /\
  status_of (SimpleWebhook.handler delete_probe) = 405%Z.
Proof.
  assert (H1 : method delete_probe <> "GET") by discriminate.
  assert (H2 : method delete_probe <> "POST") by discriminate.
  destruct (method_not_allowed steady delete_probe H1 H2)
    as (Ha & (_ & Hs & _) & _ & Hb & (_ & Ht & _) & _).
  repeat split; assumption.
Defined.

Lemma post_guards_recorded :
  responds (MorningWebhook.handler steady post_order) 400 "Email not found in payload" /\
  calls_of (MorningWebhook.handler steady post_order) = [] /\
  responds (MorningWebhook.handler deserted post_dana) 404 "User not found" /\
  filter is_update_call (calls_of (MorningWebhook.handler deserted post_dana)) = [] /\
  (exists payload user others,
     JSON_parse (rawBody post_dana) = Normal payload /\
     filter_reply steady "User" (by_email (MorningWebhook.payer_email payload))
       = Normal (user :: others) /\
     "u-17" = id user).
Proof.
  destruct (post_guards steady post_order eq_refl) as (Hno & _ & _).
  destruct (post_guards deserted post_dana eq_refl) as (_ & Hempty & _).
  destruct (post_guards steady post_dana eq_refl) as (_ & _ & Honly).
  destruct (Hno order_payload eq_refl eq_refl eq_refl) as [Ha Hb].
  destruct (Hempty dana_payload eq_refl eq_refl eq_refl eq_refl) as [Hc Hd].
  repeat split; try assumption.
  apply (Honly "User" "u-17" premium). vm_compute. right. left. reflexivity.
Defined.

Lemma premium_update_dana :
  calls_of (MorningWebhook.handler steady post_dana) =
    [FilterCall "User" (by_email (JString "dana@example.com")); UpdateCall "User" "u-17" premium] /\
  responds (MorningWebhook.handler steady post_dana) 200 "User Dana Levi updated to premium" /\
  responds (MorningWebhook.handler dropping post_dana) 500 "Internal server error".
Proof.
  destruct (premium_update (rt := runtime) steady post_dana dana_payload dana [] eq_refl eq_refl eq_refl eq_refl eq_refl)
    as (Hc & Hok & _ & _).
  destruct (premium_update (rt := runtime) dropping post_dana dana_payload dana [] eq_refl eq_refl eq_refl eq_refl eq_refl)
    as (_ & _ & Hko & _).
  split; [ exact Hc | ]. split.
  - exact (Hok dana_premium "Dana Levi" eq_refl eq_refl).
  - exact (Hko _ eq_refl).
Defined.

(** C1 as it was stated fails here: the body holds Dana's email, the User
    filter returns Dana, the update call is made and rejects, and the answer
    is 500, not 200. *)
Lemma premium_update_rejected :
  method post_dana = "POST" /\
  JSON_parse (rawBody post_dana) = Normal dana_payload /\
  MorningWebhook.payer_email dana_payload = JString "dana@example.com" /\
  filter_reply dropping "User" (by_email (JString "dana@example.com")) = Normal [dana] /\
  calls_of (MorningWebhook.handler dropping post_dana) =
    [FilterCall "User" (by_email (JString "dana@example.com")); UpdateCall "User" "u-17" premium] /\
  status_of (MorningWebhook.handler dropping post_dana) = 500%Z /\
  status_of (MorningWebhook.handler dropping post_dana) <> 200%Z.
Proof. repeat split; try reflexivity. vm_compute. discriminate. Qed.

Lemma webhook_received_samples :
  responds (SimpleWebhook.handler (parsed_post (email_body (JString "dana@example.com")))) 200
    "Webhook received for dana@example.com" /\
  responds (SimpleWebhook.handler (parsed_post JNull)) 200 "Webhook received for unknown" /\
  responds (SimpleWebhook.handler (parsed_post JUndefined)) 200 "Webhook received for unknown" /\
  responds (SimpleWebhook.handler (parsed_post (JObject [("order", JNumber 17)]))) 200
    "Webhook received for unknown".
Proof.
  destruct (webhook_received (parsed_post (email_body (JString "dana@example.com"))) eq_refl)
    as (_ & _ & Hs & _).
  destruct (webhook_received (parsed_post JNull) eq_refl) as (Hn & _).
  destruct (webhook_received (parsed_post JUndefined) eq_refl) as (Hu & _).
  destruct (webhook_received (parsed_post (JObject [("order", JNumber 17)])) eq_refl) as (Ho & _).
  split; [ apply (Hs "dana@example.com" eq_refl); discriminate | ].
  split; [ exact (Hn eq_refl) | ]. split; [ exact (Hu eq_refl) | exact (Ho eq_refl) ].
Defined.

(** C10 as it was stated fails here: on the body
    [{"payer":{"email":{"toString":1}}}] the handler throws and sends
    nothing. *)
Lemma webhook_throws_on_shadowed_toString :
  method (parsed_post (email_body shadowing_email)) = "POST" /\
  fst (SimpleWebhook.handler (parsed_post (email_body shadowing_email)) initial_world)
    = Throw (TypeError "Cannot convert object to primitive value") /\
  sent (res (snd (SimpleWebhook.handler (parsed_post (email_body shadowing_email)) initial_world)))
    = None.
Proof. repeat split; reflexivity. Qed.

(** An empty payer email is present and still answered with "unknown". *)
Lemma webhook_empty_email_unknown :
  responds (SimpleWebhook.handler (parsed_post (email_body (JString "")))) 200
    "Webhook received for unknown".
Proof. repeat split; reflexivity. Qed.

(** A client built for app-1 and asked for a Todo while offline: the
    failure it surfaces is the wrapped one. *)
Lemma failures_are_Base44Error_offline :
  Sdk.Client.invoke (Sdk.Client.compose offline app_resolved)
      (Sdk.Client.EntityGet "Todo" "t-1") signed_in
    = (Throw (ThrownBase44 (Sdk.Executor.transport_error (mkError "TypeError" "fetch failed"))),
       Sdk.mkClientState None (Some "tok-1") (Some "tok-1")
         [Sdk.mkHttpRequest Sdk.GET "https://base44.app/api/apps/app-1/entities/Todo/t-1" []
            (Some "tok-1") Sdk.NoBody]
         "https://shop.example/cart" None) /\
  is_Base44Error (ThrownBase44 (Sdk.Executor.transport_error (mkError "TypeError" "fetch failed"))).
Proof.
  split; [ reflexivity | ].
  exact (proj1 (failures_are_Base44Error (rt := runtime) offline app_config signed_out signed_out
                  (Sdk.Client.compose offline app_resolved)
                  (Sdk.Client.EntityGet "Todo" "t-1") signed_in _ _ eq_refl eq_refl)).
Defined.

Lemma createClient_requires_appId_samples :
  Sdk.Client.createClient offline no_config signed_out
    = (Throw Sdk.Client.ConfigurationError, signed_out) /\
  (exists st',
     Sdk.Client.createClient offline app_config signed_out
       = (Normal (Sdk.Client.compose offline app_resolved), st') /\
     Sdk.requests st' = []) /\
  Sdk.Client.getConfig (Sdk.Client.compose offline app_resolved) tt
    = Sdk.mkSnapshot "https://base44.app" (Sdk.AppIdString "app-1") "prod" false.
Proof.
  destruct (createClient_requires_appId (rt := runtime) offline no_config signed_out) as (Hno & _).
  destruct (createClient_requires_appId (rt := runtime) offline app_config signed_out)
    as (_ & Hyes & _).
  split; [ exact (Hno eq_refl) | ]. split; [ | reflexivity ].
  destruct (Hyes (Sdk.AppIdString "app-1") eq_refl) as (st' & Hc & Hr & _).
  exists st'. split; [ exact Hc | exact Hr ].
Defined.

(** The probe offline, refused with 401, and served; and no token at
    all. *)
Lemma isAuthenticated_samples :
  fst (Sdk.Auth.isAuthenticated offline app_resolved signed_in) = Normal false /\
  fst (Sdk.Auth.isAuthenticated unauthorized app_resolved signed_in) = Normal false /\
  fst (Sdk.Auth.isAuthenticated serving app_resolved signed_in) = Normal true /\
  fst (Sdk.Auth.isAuthenticated serving app_resolved signed_out) = Normal false /\
  Sdk.requests (snd (Sdk.Auth.isAuthenticated serving app_resolved signed_out)) = [].
Proof.
  destruct (isAuthenticated_never_rejects (rt := runtime) offline app_resolved signed_in)
    as (b & st' & Hr & _ & _ & Hnet & _).
  split.
  { rewrite Hr. simpl. f_equal. exact (Hnet _ eq_refl). }
  repeat split; reflexivity.
Defined.

End RecordedRuns.

(* ================================================================= *)
(** ** The failing paths on the recorded requests *)

Section RecordedEdges.
#[local] Existing Instance Sample.runtime.
Import Sample.
Import Edge.

Lemma unreadable_body_500_samples :
  responds (MorningWebhook.handler steady post_cut) 500 "Internal server error" /\
  calls_of (MorningWebhook.handler steady post_cut) = [] /\
  responds (MorningWebhook.handler steady post_aborted) 500 "Internal server error" /\
  In (ConsoleError [LogText "❌ Error:"; LogText "aborted"])
     (trace (snd (MorningWebhook.handler steady post_aborted initial_world))).
Proof.
  destruct (unreadable_body_500 (rt := runtime) steady post_cut
              (ThrownError (mkError "SyntaxError" "Unexpected token")) eq_refl
              (or_intror (conj eq_refl eq_refl))) as (Ha & Hb & _).
  destruct (unreadable_body_500 (rt := runtime) steady post_aborted aborted eq_refl
              (or_introl eq_refl)) as (Hc & _ & Hd).
  repeat split; try assumption. rewrite Hd. left. reflexivity.
Defined.

Lemma filter_rejected_500_refusing :
  responds (MorningWebhook.handler refusing post_dana) 500 "Internal server error" /\
  calls_of (MorningWebhook.handler refusing post_dana) =
    [FilterCall "User" (by_email (JString "dana@example.com"))].
Proof.
  destruct (filter_rejected_500 (rt := runtime) refusing post_dana dana_payload refused
              eq_refl eq_refl eq_refl eq_refl eq_refl) as (Ha & Hb & _).
  split; assumption.
Defined.


Lemma chunking_is_irrelevant_dana :
  MorningWebhook.handler steady post_dana initial_world
    = MorningWebhook.handler steady post_dana_whole initial_world.
Proof.
  exact (chunking_is_irrelevant (rt := runtime) steady post_dana post_dana_whole
           eq_refl eq_refl eq_refl).
Defined.

Lemma only_first_user_matters_crowded :
  MorningWebhook.handler steady post_dana initial_world
    = MorningWebhook.handler crowded post_dana initial_world.
Proof.
  apply (only_first_user_matters (rt := runtime) steady crowded post_dana).
  - intros query. simpl.
    destruct (knows_dana "User" query) as [[ | user others] | err]; reflexivity.
  - intros target changes. reflexivity.
Defined.

Lemma email_guard_shapes_order :
  responds (MorningWebhook.handler steady post_order) 400 "Email not found in payload" /\
  trace (snd (MorningWebhook.handler steady post_order initial_world)) = [].
Proof.
  exact (email_guard_shapes (rt := runtime) steady post_order order_payload
           eq_refl eq_refl eq_refl (or_intror (or_introl eq_refl))).
Defined.

Lemma allow_header_only_on_405_samples :
  headers_of (MorningWebhook.handler steady get_probe) = [] /\
  headers_of (MorningWebhook.handler steady post_dana) = [] /\
  headers_of (SimpleWebhook.handler (parsed_post JNull)) = [].
Proof.
  destruct (allow_header_only_on_405 (rt := runtime) steady get_probe (or_introl eq_refl))
    as [Ha _].
  destruct (allow_header_only_on_405 (rt := runtime) steady post_dana (or_intror eq_refl))
    as [Hb _].
  destruct (allow_header_only_on_405 (rt := runtime) steady (parsed_post JNull)
              (or_intror eq_refl)) as [_ Hc].
  repeat split; assumption.
Defined.

Lemma body_without_payer_unknown_samples :
  responds (SimpleWebhook.handler (parsed_post JUndefined)) 200 "Webhook received for unknown" /\
  responds (SimpleWebhook.handler (parsed_post (JString "payer=dana")))
    200 "Webhook received for unknown" /\
  responds (SimpleWebhook.handler (parsed_post (JObject [("payer", JArray [])])))
    200 "Webhook received for unknown".
Proof.
  split; [ | split ].
  - exact (body_without_payer_unknown (rt := runtime) (parsed_post JUndefined)
             eq_refl (or_introl eq_refl)).
  - exact (body_without_payer_unknown (rt := runtime) (parsed_post (JString "payer=dana"))
             eq_refl (or_introl eq_refl)).
  - exact (body_without_payer_unknown (rt := runtime)
             (parsed_post (JObject [("payer", JArray [])])) eq_refl (or_intror eq_refl)).
Defined.

Lemma webhook_throws_iff_shadowed_nested :
  (exists err,
     fst (SimpleWebhook.handler (parsed_post (email_body nested_shadow)) initial_world)
       = Throw err) /\
  fst (SimpleWebhook.handler (parsed_post (email_body (JArray [JNumber 1%float; JNull])))
         initial_world) = Normal tt.
Proof.
  destruct (webhook_throws_iff_shadowed (rt := runtime)
              (parsed_post (email_body nested_shadow)) eq_refl) as [Hthrows _].
  destruct (webhook_throws_iff_shadowed (rt := runtime)
              (parsed_post (email_body (JArray [JNumber 1%float; JNull]))) eq_refl)
    as [_ Hsafe].
  split; [ apply Hthrows; reflexivity | apply Hsafe; reflexivity ].
Defined.

End RecordedEdges.
